(** * go-bitmex realtime client: orderbook decoding and session loop

    A shallow embedding of the [realtime] package of go-numb/go-bitmex
    (the [OrderBook] decoder and the websocket session [Connect]), with the
    properties of the session engine stated over it.

    Part I holds the embedding, Part II the properties. *)

From Stdlib Require Import ZArith List String Ascii Lia.
From Stdlib Require Import Floats.PrimFloat DecimalString DecimalPos.
From stdpp Require Import gmap strings list.

Set Warnings "-register-all".

(** * Part I: the embedding *)

(** ** Go's [strings] package, on byte strings *)

Module GoStrings.

(** [strings.HasPrefix(s, prefix)] *)
Fixpoint HasPrefix (s prefix : string) {struct prefix} : bool :=
  match prefix with
  | EmptyString => true
  | String a prefix' =>
      match s with
      | EmptyString => false
      | String b s' => if Ascii.eqb a b then HasPrefix s' prefix' else false
      end
  end.

(** [s[n:]], for [n <= len(s)] *)
Fixpoint sliceFrom (n : nat) (s : string) : string :=
  match n with
  | O => s
  | S n' =>
      match s with
      | EmptyString => EmptyString
      | String _ s' => sliceFrom n' s'
      end
  end.

(** [strings.HasSuffix(s, suffix)], that is
    [len(s) >= len(suffix) && s[len(s)-len(suffix):] == suffix]. *)
Definition HasSuffix (s suffix : string) : bool :=
  (String.length suffix <=? String.length s)%nat
  && String.eqb (sliceFrom (String.length s - String.length suffix) s) suffix.

(** [strings.Index(s, substr)]: the byte index of the first instance of
    [substr] in [s], or [-1]. *)
Fixpoint Index (s substr : string) : Z :=
  if HasPrefix s substr then 0%Z
  else
    match s with
    | EmptyString => (-1)%Z
    | String _ s' =>
        let i := Index s' substr in
        if (i <? 0)%Z then (-1)%Z else (i + 1)%Z
    end.

(** [strings.Contains(s, substr)], that is [Index(s, substr) >= 0]. *)
Definition Contains (s substr : string) : bool := (0 <=? Index s substr)%Z.

End GoStrings.

(** ** Values produced by the JSON decoder

    [json.Unmarshal] into [interface{}] yields [nil], [bool], [float64],
    [string], [[]interface{}] or [map[string]interface{}]. *)

Definition float64 : Type := PrimFloat.float.

Inductive JValue : Type :=
| JNull
| JBool (b : bool)
| JNumber (f : float64)
| JString (s : string)
| JArray (l : list JValue)
| JObject (m : gmap string JValue).

(** A Go [error], carried as the text of its [Error()] method; the [nil]
    error is [None] of [option error]. *)
Definition error : Type := string.

(** [time.Time], as nanoseconds from the Unix epoch. *)
Definition Time : Type := Z.

Definition Second : Z := 1000000000.
Definition Minute : Z := 60 * Second.

(** [t.Add(d)] and [t.Unix()] *)
Definition Time_Add (t : Time) (d : Z) : Time := (t + d)%Z.
Definition Time_Unix (t : Time) : Z := (t / Second)%Z.

(** The zero [time.Time], January 1 of year 1, 00:00:00 UTC. *)
Definition zeroTime : Time := (-62135596800 * Second)%Z.

(** The tables of the realtime feed, [type Types int] of websocket.go. *)
Inductive Types : Type :=
| All | Announcement | Chat | Connected | Funding | Instrument | Insurance
| Liquidation | Orderbook | OrderbookL | Notifications | Quote | Settlement
| Trade | TradeBin
| Affiliate | Execution | Order | Margin | Position
| NotificationsForPrivate | Transact | Wallet
| Undefined | Error.

(** The library functions the package calls. They live outside the
    repository (json-iterator, jsonparser, [fmt], [time]) and are taken as
    given; a failed call is [inl] or [None]. *)
Record JSONLib : Type := mkJSONLib {
  (** [json.Unmarshal(b, &in)] with [in : map[string]interface{}] *)
  json_Unmarshal_map : string -> error + gmap string JValue;
  (** [fmt.Sprintf("%v", x)]; an absent map key reads as [nil] *)
  fmt_Sprintf_v : option JValue -> string;
  (** [time.Parse(time.RFC3339Nano, s)] *)
  time_Parse_RFC3339Nano : string -> option Time;
  (** [jsonparser.GetString(msg, key)] *)
  jsonparser_GetString : string -> string -> option string;
  (** [jsonparser.Get(msg, key)] *)
  jsonparser_Get : string -> string -> option string;
  (** [json.Unmarshal(data, &rows)] into the slice of [bitmex] structs of a
      table; the decoded rows are kept as JSON values *)
  json_Unmarshal_rows : Types -> string -> option (list JValue);
  (** the raw elements [json.Unmarshal] hands to a slice element's own
      [UnmarshalJSON] *)
  json_Unmarshal_elements : string -> option (list string)
}.

(** ** orderbook.go *)

Record Book : Type := mkBook { Price : float64; Size : float64 }.

Record OrderBook : Type := mkOrderBook {
  Symbol : string;
  Timestamp : Time;
  Bids : list Book;
  Asks : list Book
}.

(** The zero [Book], with which [make([]Book, n)] fills the slice. *)
Definition zeroBook : Book := mkBook 0%float 0%float.

(** The zero [OrderBook]: a fresh slice element, or [var p OrderBook]. *)
Definition zeroOrderBook : OrderBook := mkOrderBook "" zeroTime [] [].

Definition bookname : list string := ["asks"; "bids"].

(** [x, _ = v.(float64)]: the comma-ok assertion yields the zero value when
    [v] does not hold a [float64]. *)
Definition asFloat64 (v : JValue) : float64 :=
  match v with
  | JNumber f => f
  | _ => 0%float
  end.

(** One iteration of [for i, v := range body] on the slice [books]:
    [continue] unless [v] is an array of length 2, else both fields of
    [books[i]] are assigned. *)
Definition decodeRow (i : nat) (v : JValue) (books : list Book) : list Book :=
  match v with
  | JArray book =>
      match book with
      | [b0; b1] => <[i := mkBook (asFloat64 b0) (asFloat64 b1)]> books
      | _ => books
      end
  | _ => books
  end.

(** The range loop from index [i] on. *)
Fixpoint decodeRowsFrom (i : nat) (body : list JValue) (books : list Book) : list Book :=
  match body with
  | [] => books
  | v :: body' => decodeRowsFrom (S i) body' (decodeRow i v books)
  end.

(** [books := make([]Book, len(body))], then the range loop. *)
Definition decodeRows (body : list JValue) : list Book :=
  decodeRowsFrom 0 body (replicate (length body) zeroBook).

(** What the loop leaves at the index of the element [v]: the decoded row,
    or the zero row the slice was made with. *)
Definition rowOf (v : JValue) : Book :=
  match v with
  | JArray [b0; b1] => mkBook (asFloat64 b0) (asFloat64 b1)
  | _ => zeroBook
  end.

(** [for i := range bookname], from the names still to visit. *)
Fixpoint decodeSides (in_ : gmap string JValue) (names : list string)
    (p : OrderBook) : OrderBook * option error :=
  match names with
  | [] => (p, None)
  | name :: names' =>
      match in_ !! name with
      | Some (JArray body) =>
          let books := decodeRows body in
          let p' :=
            if String.eqb name "ask"
            then mkOrderBook (Symbol p) (Timestamp p) (Bids p) books
            else mkOrderBook (Symbol p) (Timestamp p) books (Asks p) in
          decodeSides in_ names' p'
      | _ => (p, Some "data has not type")
      end
  end.

(** [func (p *OrderBook) UnmarshalJSON(b []byte) error]: the receiver after
    the call, and the returned error. *)
Definition UnmarshalJSON (lib : JSONLib) (p : OrderBook) (b : string)
    : OrderBook * option error :=
  match json_Unmarshal_map lib b with
  | inl err => (p, Some err)
  | inr in_ =>
      let symbol := fmt_Sprintf_v lib (in_ !! "symbol") in
      let timestamp :=
        match time_Parse_RFC3339Nano lib (fmt_Sprintf_v lib (in_ !! "timestamp")) with
        | Some t => t
        | None => zeroTime
        end in
      decodeSides in_ bookname (mkOrderBook symbol timestamp (Bids p) (Asks p))
  end.

(** [json.Unmarshal(data, &r.Orderbook)]: every element of the array goes
    through [UnmarshalJSON] on a fresh [OrderBook]; the first error fails
    the call. *)
Fixpoint unmarshalOrderBooks (lib : JSONLib) (elems : list string) : option (list OrderBook) :=
  match elems with
  | [] => Some []
  | e :: elems' =>
      match UnmarshalJSON lib zeroOrderBook e with
      | (p, None) =>
          match unmarshalOrderBooks lib elems' with
          | Some ps => Some (p :: ps)
          | None => None
          end
      | (_, Some _) => None
      end
  end.

(** ** [crypto/sha256], [crypto/hmac] and [encoding/hex]

    Bytes are integers in [0, 256), words are integers in [0, 2^32). *)

Module Crypto.

Local Open Scope Z_scope.

Definition bytesOf (s : string) : list Z :=
  map (fun c => Z.of_N (N_of_ascii c)) (list_ascii_of_string s).

Definition w32 (x : Z) : Z := x mod 2 ^ 32.

Definition rotr (n x : Z) : Z :=
  w32 (Z.lor (Z.shiftr x n) (Z.shiftl x (32 - n))).

Definition Ch (x y z : Z) : Z :=
  Z.lxor (Z.land x y) (Z.land (Z.lnot x) z).

Definition Maj (x y z : Z) : Z :=
  Z.lxor (Z.lxor (Z.land x y) (Z.land x z)) (Z.land y z).

Definition bigSigma0 (x : Z) : Z := Z.lxor (Z.lxor (rotr 2 x) (rotr 13 x)) (rotr 22 x).
Definition bigSigma1 (x : Z) : Z := Z.lxor (Z.lxor (rotr 6 x) (rotr 11 x)) (rotr 25 x).
Definition smallSigma0 (x : Z) : Z := Z.lxor (Z.lxor (rotr 7 x) (rotr 18 x)) (Z.shiftr x 3).
Definition smallSigma1 (x : Z) : Z := Z.lxor (Z.lxor (rotr 17 x) (rotr 19 x)) (Z.shiftr x 10).

(** The constants of FIPS 180-4: the first 32 bits of the fractional parts
    of the cube roots of the first 64 primes, and of the square roots of
    the first 8 primes. *)
Definition isPrime (p : Z) : bool :=
  forallb (fun d => negb (p mod d =? 0)) (map Z.of_nat (seq 2 (Z.to_nat p - 2))).

Definition primes : list Z := List.filter isPrime (map Z.of_nat (seq 2 310)).

(** The integer cube root of [n], one bit at a time from bit [bits - 1]. *)
Fixpoint icbrt (bits : nat) (n acc : Z) : Z :=
  match bits with
  | O => acc
  | S bits' =>
      let cand := acc + 2 ^ Z.of_nat bits' in
      if cand ^ 3 <=? n then icbrt bits' n cand else icbrt bits' n acc
  end.

Definition K256 : list Z :=
  Eval vm_compute in map (fun p => icbrt 40 (p * 2 ^ 96) 0 mod 2 ^ 32) primes.

Definition H256 : list Z :=
  Eval vm_compute in map (fun p => Z.sqrt (p * 2 ^ 64) mod 2 ^ 32) (firstn 8 primes).

(** Big-endian bytes of a word, and back. *)
Definition bytesOfWord (n : nat) (x : Z) : list Z :=
  map (fun i => Z.shiftr x (8 * Z.of_nat i) mod 256) (rev (seq 0 n)).

Definition wordOfBytes (bs : list Z) : Z :=
  fold_left (fun acc b => acc * 256 + b) bs 0.

(** The message, the byte [0x80], zeros up to 56 modulo 64, and the bit
    length on 8 bytes. *)
Definition pad (msg : list Z) : list Z :=
  let len := Z.of_nat (length msg) in
  let zeros := Z.to_nat ((55 - len) mod 64) in
  msg ++ [0x80] ++ repeat 0 zeros ++ bytesOfWord 8 (8 * len).

(** Groups of [k] elements; [fuel] bounds the number of groups. *)
Fixpoint chunks {A : Type} (fuel k : nat) (l : list A) : list (list A) :=
  match fuel with
  | O => []
  | S fuel' =>
      match l with
      | [] => []
      | _ => firstn k l :: chunks fuel' k (skipn k l)
      end
  end.

(** The message schedule beyond the 16 words of the block: [win] holds the
    last 16 words. *)
Fixpoint schedule (n : nat) (win : list Z) : list Z :=
  match n with
  | O => []
  | S n' =>
      let w := w32 (smallSigma1 (nth 14 win 0) + nth 9 win 0
                    + smallSigma0 (nth 1 win 0) + nth 0 win 0) in
      w :: schedule n' (tl win ++ [w])
  end.

Definition round (st : list Z) (kw : Z * Z) : list Z :=
  match st with
  | [a; b; c; d; e; f; g; h] =>
      let t1 := h + bigSigma1 e + Ch e f g + fst kw + snd kw in
      let t2 := bigSigma0 a + Maj a b c in
      [w32 (t1 + t2); a; b; c; w32 (d + t1); e; f; g]
  | _ => st
  end.

Definition compress (h : list Z) (block : list Z) : list Z :=
  let w := map wordOfBytes (chunks 16 4 block) in
  let ws := w ++ schedule 48 w in
  let st := fold_left round (combine K256 ws) h in
  map (fun xy => w32 (fst xy + snd xy)) (combine h st).

(** [sha256.Sum256] *)
Definition sha256 (msg : list Z) : list Z :=
  let padded := pad msg in
  let blocks := chunks (length padded) 64 padded in
  flat_map (bytesOfWord 4) (fold_left compress blocks H256).

(** [hmac.New(sha256.New, key)], [Write(msg)], [Sum(nil)] (RFC 2104). *)
Definition hmac_sha256 (key msg : list Z) : list Z :=
  let k := if (64 <? length key)%nat then sha256 key else key in
  let k := k ++ repeat 0 (64 - length k) in
  let ipad := map (Z.lxor 0x36) k in
  let opad := map (Z.lxor 0x5c) k in
  sha256 (opad ++ sha256 (ipad ++ msg)).

Definition hexDigit (d : Z) : ascii :=
  nth (Z.to_nat d) (list_ascii_of_string "0123456789abcdef") "0"%char.

(** [hex.EncodeToString] *)
Fixpoint EncodeToString (bs : list Z) : string :=
  match bs with
  | [] => EmptyString
  | b :: bs' => String (hexDigit (b / 16)) (String (hexDigit (b mod 16)) (EncodeToString bs'))
  end.

End Crypto.

(** [fmt.Sprintf("%d", n)] *)
Definition formatInt (n : Z) : string := NilZero.string_of_int (Z.to_int n).

(** ** websocket.go: data *)

Definition ENDPOINT : string := "wss://www.bitmex.com/realtime".
Definition READDEADLINE : Z := 300 * Second.
Definition AUTHKEY : string := "auth".

(** [func (p Types) String() string] *)
Definition Types_String (p : Types) : string :=
  match p with
  | Announcement => "announcement"
  | Chat => "chat"
  | Connected => "connected"
  | Funding => "funding"
  | Instrument => "instrument"
  | Insurance => "insurance"
  | Liquidation => "liquidation"
  | Orderbook => "orderBook"
  | OrderbookL => "orderBookL"
  | Notifications => "publicNotifications"
  | Quote => "quote"
  | Settlement => "settlement"
  | Trade => "trade"
  | TradeBin => "tradeBin"
  | Affiliate => "affiliate"
  | Execution => "execution"
  | Order => "order"
  | Margin => "margin"
  | Position => "position"
  | NotificationsForPrivate => "privateNotifications"
  | Transact => "transact"
  | Wallet => "wallet"
  | Error => "error"
  | All | Undefined => "undefined"
  end.

Record Auth : Type := mkAuth { Key : string; Secret : string }.

(** An element of [Args []interface{}]: a string or an [int64]. *)
Inductive Arg : Type :=
| ArgString (s : string)
| ArgInt64 (n : Z).

Record Request : Type := mkRequest { Op : string; Args : list Arg; ID : Z }.

(** [type Response struct]. Of the payload fields only the one of the
    table [r_Types] is ever assigned: [r_Orderbook] is the field
    [Orderbook], [r_Rows] stands for the field of any other table, whose
    element type is a struct of package [bitmex]. *)
Record Response : Type := mkResponse {
  r_Types : Types;
  r_ProductCode : string;
  r_Action : string;
  r_Orderbook : list OrderBook;
  r_Rows : list JValue;
  r_Results : option error
}.

(** [var r Response] *)
Definition zeroResponse : Response := mkResponse All "" "" [] [] None.

(** What is written on the connection: [WriteJSON(req)], or
    [WriteMessage(websocket.TextMessage, text)]. *)
Inductive Frame : Type :=
| JSONFrame (req : Request)
| TextFrame (text : string).

(** The websocket connection. [writeOutcomes] and [closeOutcome] are what
    the network will answer: the error of each write still to come (a nil
    error once the list is used up) and of [Close]. [written] and [closes]
    record what the client did: every write attempted, in order, with its
    outcome, and the number of calls of [Close]. *)
Record Conn : Type := mkConn {
  writeOutcomes : list (option error);
  closeOutcome : option error;
  written : list (Frame * option error);
  closes : nat
}.

(** The lines handed to the logger, by the call that prints them. *)
Inductive LogLine : Type :=
| LogClose (err : error)
| LogDisconnect (err : error)
| LogSubscribed (req : Request)
| LogUnsubscribe (err : error)
| LogKilledSubscribe
| LogError (err : error).

(** [type Client struct]. [conn] is never nil in a client made by [New],
    the only constructor of the package; [log] holds the lines printed so
    far. *)
Record Client : Type := mkClient {
  conn : Conn;
  ClientAuth : option Auth;
  log : list LogLine
}.

Definition setConn (p : Client) (c : Conn) : Client :=
  mkClient c (ClientAuth p) (log p).

(** [p.log.Printf(...)] *)
Definition logf (p : Client) (l : LogLine) : Client :=
  mkClient (conn p) (ClientAuth p) (log p ++ [l]).

(** The caller's context when the loop looks at it. *)
Inductive CtxState : Type := Active | Canceled | DeadlineExceeded.

(** [ctx.Err()] *)
Definition ctx_Err (c : CtxState) : option error :=
  match c with
  | Active => None
  | Canceled => Some "context canceled"
  | DeadlineExceeded => Some "context deadline exceeded"
  end.

(** What one turn of the read loop meets: a frame, with the state of the
    context at the checkpoint that follows its decoding, or a read error. *)
Inductive Step : Type :=
| ReadFrame (msg : string) (ctx : CtxState)
| ReadFail (err : error).

(** The error of [ReadMessage] when no frame arrives before the read
    deadline. *)
Definition readTimeout : error := "i/o timeout".

(** The surroundings of one call of [Connect]. *)
Record Env : Type := mkEnv {
  (** [websocket.DefaultDialer.Dial(ENDPOINT, nil)] *)
  dial : error + Conn;
  (** the [Auth] that [ctx.Value(AUTHKEY)] points to, if any *)
  ctxAuth : option Auth;
  (** [time.Now()] in [signture] *)
  clock : Time;
  (** the frames and read errors to come; after the last one no frame
      arrives and the read deadline expires *)
  steps : list Step
}.

(** A call either returns its error value or panics. *)
Inductive Outcome : Type :=
| Returns (err : option error)
| Panics.

(** The end of a call of [Connect]: its outcome, the client it leaves
    ([None]: a nil [*Client]) and the content of the channel [ch]. *)
Record Result : Type := mkResult {
  outcome : Outcome;
  client : option Client;
  channel : list Response
}.

(** ** websocket.go: the connection and the client's methods *)

(** [conn.WriteJSON(req)]: the write is recorded with the outcome the
    network gives it. *)
Definition WriteJSON (c : Conn) (req : Request) : Conn * option error :=
  let r := match writeOutcomes c with [] => None | r :: _ => r end in
  (mkConn (tl (writeOutcomes c)) (closeOutcome c)
          (written c ++ [(JSONFrame req, r)]) (closes c), r).

(** [conn.WriteMessage(websocket.TextMessage, text)] *)
Definition WriteMessage (c : Conn) (text : string) : Conn * option error :=
  let r := match writeOutcomes c with [] => None | r :: _ => r end in
  (mkConn (tl (writeOutcomes c)) (closeOutcome c)
          (written c ++ [(TextFrame text, r)]) (closes c), r).

(** [func New(ctx context.Context, l *log.Logger) *Client]: [None] is the
    nil client returned when the dial fails. *)
Definition New (env : Env) : option Client :=
  match dial env with
  | inl _ => None
  | inr c => Some (mkClient c (ctxAuth env) [])
  end.

(** [func (p *Client) Close() error], on a client with a connection. *)
Definition Close (p : Client) : Client * option error :=
  let c := conn p in
  let c' := mkConn (writeOutcomes c) (closeOutcome c) (written c) (S (closes c)) in
  match closeOutcome c with
  | Some err => (logf (setConn p c') (LogClose err), Some err)
  | None => (setConn p c', None)
  end.

(** The argument list [subscribe] builds: the two nested range loops when
    [symbols != nil], the single loop otherwise. A nil slice is [None]. *)
Definition subscribeArgs (channels : list string) (symbols : option (list string))
    : list Arg :=
  match symbols with
  | Some symbols =>
      fold_left
        (fun args c =>
           fold_left (fun args s => args ++ [ArgString (c +:+ ":" +:+ s)]) symbols args)
        channels []
  | None => fold_left (fun args c => args ++ [ArgString c]) channels []
  end.

(** [for i := range requests] of [subscribe]: the first failed write ends
    the loop with its error. *)
Fixpoint writeRequests (p : Client) (requests : list Request) : Client * option error :=
  match requests with
  | [] => (p, None)
  | req :: requests' =>
      let '(c, err) := WriteJSON (conn p) req in
      match err with
      | Some e => (setConn p c, Some e)
      | None => writeRequests (logf (setConn p c) (LogSubscribed req)) requests'
      end
  end.

(** [func (p *Client) subscribe(channels, symbols []string) ([]Request, error)] *)
Definition subscribe (p : Client) (channels : list string) (symbols : option (list string))
    : Client * list Request * option error :=
  let requests := [mkRequest "subscribe" (subscribeArgs channels symbols) 0] in
  let '(p', err) := writeRequests p requests in
  match err with
  | Some e => (p', [], Some e)
  | None => (p', requests, None)
  end.

(** [for i := range requests] of [unsubscribe]: a failed write is logged
    and the loop goes on. *)
Fixpoint unsubscribeEach (p : Client) (requests : list Request) : Client :=
  match requests with
  | [] => p
  | req :: requests' =>
      let req' := mkRequest "unsubscribe" (Args req) (ID req) in
      let '(c, err) := WriteJSON (conn p) req' in
      let p' := setConn p c in
      let p'' := match err with Some e => logf p' (LogUnsubscribe e) | None => p' end in
      unsubscribeEach p'' requests'
  end.

(** [func (p *Client) unsubscribe(requests []Request)] *)
Definition unsubscribe (p : Client) (requests : list Request) : Client :=
  logf (unsubscribeEach p requests) LogKilledSubscribe.

(** [func (p *Client) ping(ctx context.Context)], for [ticks] firings of
    the ticker before [ctx.Done()]: each writes the text frame [ping], and
    a failed write is passed over. *)
Fixpoint ping (p : Client) (ticks : nat) : Client :=
  match ticks with
  | O => p
  | S ticks' => ping (setConn p (fst (WriteMessage (conn p) "ping"))) ticks'
  end.

(** [func (p *Client) signture() error], with [now] for [time.Now()] and
    [auth] for the [Auth] that [p.Auth] points to ([Connect] calls it only
    when [p.Auth != nil]). *)
Definition signture (now : Time) (auth : Auth) (p : Client) : Client * option error :=
  let expire := Time_Unix (Time_Add now (24 * 60 * Minute)) in
  let payload := "GET/realtime" +:+ formatInt expire in
  let sign :=
    Crypto.EncodeToString
      (Crypto.hmac_sha256 (Crypto.bytesOf (Secret auth)) (Crypto.bytesOf payload)) in
  let req :=
    mkRequest "authKeyExpires" [ArgString (Key auth); ArgInt64 expire; ArgString sign] 1 in
  let '(c, err) := WriteJSON (conn p) req in
  (setConn p c, err).

(** ** websocket.go: the read loop of [Connect] *)

(** The first [switch] of the loop: the prefixes in the order of its
    cases, with the table each one selects. *)
Definition tableCases : list (string * Types) :=
  [ ("quote", Quote); ("orderBookL", OrderbookL); ("orderBook", Orderbook);
    ("tradeBin", TradeBin); ("trade", Trade); ("announcement", Announcement);
    ("chat", Chat); ("connected", Connected); ("funding", Funding);
    ("instrument", Instrument); ("insurance", Insurance);
    ("settlement", Settlement); ("publicNotifications", Notifications);
    ("execution", Execution); ("order", Order); ("margin", Margin);
    ("position", Position); ("transact", Transact); ("wallet", Wallet);
    ("privateNotifications", NotificationsForPrivate); ("affiliate", Affiliate) ].

(** The case taken for the topic [name]; [None] is [default]. *)
Fixpoint switchTable (cases : list (string * Types)) (name : string) : option Types :=
  match cases with
  | [] => None
  | (prefix, t) :: cases' =>
      if GoStrings.HasPrefix name prefix then Some t else switchTable cases' name
  end.

Section ReadLoop.

Variable lib : JSONLib.

(** The constants [bitmex.XBTUSD] and [bitmex.ETHUSD]; their declarations
    are in a file of package [bitmex] that is not at hand. *)
Variables XBTUSD ETHUSD : string.

(** The body of a case: [r.Types = t], then [json.Unmarshal(data, &r.T)]
    into the field of the table; [None] is the [continue] on a decoding
    error. *)
Definition unmarshalData (t : Types) (data : string) (r : Response) : option Response :=
  match t with
  | Orderbook =>
      match json_Unmarshal_elements lib data with
      | Some elems =>
          match unmarshalOrderBooks lib elems with
          | Some books =>
              Some (mkResponse t (r_ProductCode r) (r_Action r) books (r_Rows r) (r_Results r))
          | None => None
          end
      | None => None
      end
  | _ =>
      match json_Unmarshal_rows lib t data with
      | Some rows =>
          Some (mkResponse t (r_ProductCode r) (r_Action r) (r_Orderbook r) rows (r_Results r))
      | None => None
      end
  end.

(** The second [switch] of the loop, [// switch with ProductCode]. *)
Definition productCode (name : string) : string :=
  if GoStrings.HasSuffix name XBTUSD then XBTUSD
  else if GoStrings.HasSuffix name ETHUSD then ETHUSD
  else if GoStrings.HasSuffix name "XRPUSD" then "XRPUSD"
  else if GoStrings.Contains name ":"
       then GoStrings.sliceFrom (Z.to_nat (GoStrings.Index name ":" + 1)) name
  else "undefined".

(** One frame through the loop body, up to the checkpoint on the context:
    the [Response] to send, or [None] when the body ends in [continue]. *)
Definition decodeFrame (msg : string) : option Response :=
  match jsonparser_GetString lib msg "table" with
  | None => None
  | Some name =>
      let action :=
        match jsonparser_GetString lib msg "action" with Some a => a | None => "" end in
      let r := mkResponse All "" action [] [] None in
      match jsonparser_Get lib msg "data" with
      | None => None
      | Some data =>
          let classified :=
            match switchTable tableCases name with
            | Some t => unmarshalData t data r
            | None => Some (mkResponse Undefined "" action [] [] (Some msg))
            end in
          match classified with
          | None => None
          | Some r' =>
              Some (mkResponse (r_Types r') (productCode name) (r_Action r')
                               (r_Orderbook r') (r_Rows r') (r_Results r'))
          end
      end
  end.

(** The function handed to [eg.Go]: the [for] loop over the frames to
    come. It leaves only by returning an error: the wrapped read error, or
    [ctx.Err()] at the checkpoint after a decoded frame; [ch <- r] appends
    to the channel. *)
Fixpoint readLoop (todo : list Step) (ch : list Response) : list Response * error :=
  match todo with
  | [] => (ch, "can't receive error: " +:+ readTimeout)
  | ReadFail err :: _ => (ch, "can't receive error: " +:+ err)
  | ReadFrame msg ctx :: todo' =>
      match decodeFrame msg with
      | None => readLoop todo' ch
      | Some r =>
          match ctx_Err ctx with
          | Some err => (ch, err)
          | None => readLoop todo' (ch ++ [r])
          end
      end
  end.

(** ** websocket.go: [Connect] *)

(** [func Connect(ctx, ch, channels, symbols, l) error]. The deferred
    calls run when the function returns, last deferred first:
    [p.unsubscribe(requests)] once it is deferred, then [p.Close()]. With
    a nil [p] the test [p.Auth != nil] dereferences it and the call
    panics. The goroutine [go p.ping(ctx)] runs beside the loop and is not
    part of this sequential reading; [eg.Go] followed by [eg.Wait] is the
    call of the loop. *)
Definition Connect (env : Env) (ch : list Response) (channels : list string)
    (symbols : option (list string)) : Result :=
  match New env with
  | None => mkResult Panics None ch
  | Some p =>
      let '(p1, err) :=
        match ClientAuth p with
        | Some auth => signture (clock env) auth p
        | None => (p, None)
        end in
      match err with
      | Some e => mkResult (Returns (Some e)) (Some (fst (Close p1))) ch
      | None =>
          let '(p2, requests, err) := subscribe p1 channels symbols in
          match err with
          | Some e =>
              let p3 := logf p2 (LogDisconnect e) in
              mkResult (Returns (Some ("disconnect " +:+ e))) (Some (fst (Close p3))) ch
          | None =>
              let '(ch', e) := readLoop (steps env) ch in
              let p3 := logf p2 (LogError e) in
              let ret :=
                if GoStrings.Contains e "context canceled"
                then Some ("context stop outside " +:+ e)
                else None in
              mkResult (Returns ret) (Some (fst (Close (unsubscribe p3 requests)))) ch'
          end
      end
  end.

(** The client and the requests with which [Connect] enters the read
    loop, when it gets there: the dial, the authentication write (if any)
    and the subscribe writes have all succeeded. *)
Definition streaming (env : Env) (channels : list string) (symbols : option (list string))
    : option (Client * list Request) :=
  match New env with
  | None => None
  | Some p =>
      match (match ClientAuth p with
             | Some auth => signture (clock env) auth p
             | None => (p, None)
             end) with
      | (_, Some _) => None
      | (p1, None) =>
          match subscribe p1 channels symbols with
          | (_, _, Some _) => None
          | (p2, requests, None) => Some (p2, requests)
          end
      end
  end.

End ReadLoop.

(** ** The arguments of a subscription, as the specification words them *)

(** Every channel with every symbol, channel by channel. *)
Definition crossProduct (channels symbols : list string) : list Arg :=
  flat_map (fun c => map (fun s => ArgString (c +:+ ":" +:+ s)) symbols) channels.

(** The read path fails with [err] while the session is streaming: every
    frame before the failure is dropped or sent on with the context still
    active, and then a read fails, or no frame arrives before the
    deadline. *)
Inductive failsWith (lib : JSONLib) (XBTUSD ETHUSD : string) : list Step -> error -> Prop :=
| failsWith_timeout : failsWith lib XBTUSD ETHUSD [] readTimeout
| failsWith_fail err todo : failsWith lib XBTUSD ETHUSD (ReadFail err :: todo) err
| failsWith_dropped msg ctx todo err :
    decodeFrame lib XBTUSD ETHUSD msg = None ->
    failsWith lib XBTUSD ETHUSD todo err ->
    failsWith lib XBTUSD ETHUSD (ReadFrame msg ctx :: todo) err
| failsWith_sent msg r todo err :
    decodeFrame lib XBTUSD ETHUSD msg = Some r ->
    failsWith lib XBTUSD ETHUSD todo err ->
    failsWith lib XBTUSD ETHUSD (ReadFrame msg Active :: todo) err.

Definition isKilledSubscribe (l : LogLine) : bool :=
  match l with
  | LogKilledSubscribe => true
  | _ => false
  end.

Definition isArray (v : option JValue) : bool :=
  match v with
  | Some (JArray _) => true
  | _ => false
  end.

(** ** A small world to run the embedding in *)

Module Sample.

(** The double quote, and a quoted word. *)
Definition dq : string := String (ascii_of_nat 34) EmptyString.
Definition quoted (s : string) : string := dq +:+ s +:+ dq.

(** A frame of the feed: its text and what the JSON functions read in it. *)
Record FrameText : Type := mkFrameText {
  text : string;
  table : option string;
  action : option string;
  data : option string
}.

Definition frameOf (tbl act dat : string) : FrameText :=
  mkFrameText
    ("{" +:+ quoted "table" +:+ ":" +:+ quoted tbl +:+ ","
         +:+ quoted "action" +:+ ":" +:+ quoted act +:+ ","
         +:+ quoted "data" +:+ ":" +:+ dat +:+ "}")
    (Some tbl) (Some act) (Some dat).

Definition tradeFrame : FrameText := frameOf "trade:XBTUSD" "insert" "[{}]".
Definition liquidationFrame : FrameText := frameOf "liquidation:XBTUSD" "insert" "[{}]".
Definition pongFrame : FrameText := mkFrameText "pong" None None None.

Definition frames : list FrameText := [tradeFrame; liquidationFrame; pongFrame].

Definition lookupFrame (msg : string) : option FrameText :=
  List.find (fun f => String.eqb (text f) msg) frames.

(** Two order book texts and the maps they decode to. *)
Definition bookText : string :=
  "{" +:+ quoted "symbol" +:+ ":" +:+ quoted "XBTUSD" +:+ ","
      +:+ quoted "asks" +:+ ":[[7025,10]],"
      +:+ quoted "bids" +:+ ":[[7024.5,200430],[7024.5,200430]]}".

Definition bookMap : gmap string JValue :=
  <["symbol" := JString "XBTUSD"]>
    (<["asks" := JArray [JArray [JNumber 7025%float; JNumber 10%float]]]>
       (<["bids" := JArray [JArray [JNumber 7024.5%float; JNumber 200430%float];
                            JArray [JNumber 7024.5%float; JNumber 200430%float]]]> ∅)).

Definition asksOnlyText : string :=
  "{" +:+ quoted "asks" +:+ ":[[7025,10]]}".

Definition asksOnlyMap : gmap string JValue :=
  <["asks" := JArray [JArray [JNumber 7025%float; JNumber 10%float]]]> ∅.

Definition lib : JSONLib :=
  mkJSONLib
    (fun b =>
       if String.eqb b bookText then inr bookMap
       else if String.eqb b asksOnlyText then inr asksOnlyMap
       else inl "invalid character")
    (fun v =>
       match v with
       | Some (JString s) => s
       | _ => "<nil>"
       end)
    (fun _ => None)
    (fun msg key =>
       match lookupFrame msg with
       | Some f =>
           if String.eqb key "table" then table f
           else if String.eqb key "action" then action f
           else None
       | None => None
       end)
    (fun msg key =>
       match lookupFrame msg with
       | Some f => if String.eqb key "data" then data f else None
       | None => None
       end)
    (fun _ dat => if String.eqb dat "[{}]" then Some [JObject ∅] else None)
    (fun _ => None).

(** A connection on which every write succeeds. *)
Definition freshConn : Conn := mkConn [] None [] 0.

Definition auth : Auth := mkAuth "key-id" "secret".

(** A session on the table [trade] of [XBTUSD]: two frames arrive and the
    connection then drops. *)
Definition droppedEnv : Env :=
  mkEnv (inr freshConn) None 1518064238000000000%Z
    [ ReadFrame (text tradeFrame) Active; ReadFrame (text pongFrame) Active;
      ReadFail "unexpected EOF" ].

(** The same session with the caller cancelling after the first frame. *)
Definition cancelledEnv : Env :=
  mkEnv (inr freshConn) (Some auth) 1518064238000000000%Z
    [ ReadFrame (text tradeFrame) Active; ReadFrame (text liquidationFrame) Canceled;
      ReadFail "unexpected EOF" ].

(** The dial fails. *)
Definition unreachableEnv : Env :=
  mkEnv (inl "dial tcp: i/o timeout") None 1518064238000000000%Z [].

Definition connect (env : Env) : Result :=
  Connect lib "XBTUSD" "ETHUSD" env [] ["trade"] (Some ["XBTUSD"]).

End Sample.

(** ** Further vocabulary for the session *)

(** The request [signture] builds at the time [now] for the credential
    [auth]. *)
Definition authRequest (now : Time) (auth : Auth) : Request :=
  let expire := Time_Unix (Time_Add now (24 * 60 * Minute)) in
  mkRequest "authKeyExpires"
    [ ArgString (Key auth); ArgInt64 expire;
      ArgString
        (Crypto.EncodeToString
           (Crypto.hmac_sha256 (Crypto.bytesOf (Secret auth))
              (Crypto.bytesOf ("GET/realtime" +:+ formatInt expire)))) ]
    1.

Arguments authRequest : simpl never.

(** The write outcomes a session uses up before it streams: one for the
    authentication when there is a credential, one for the subscription. *)
Definition startupWrites (auth : option Auth) : nat :=
  match auth with
  | Some _ => 2%nat
  | None => 1%nat
  end.

(** Every step of [pre] goes through the loop body without ending the
    loop: a frame that is dropped, or one that is decoded while the
    context is active. *)
Fixpoint passes (lib : JSONLib) (XBTUSD ETHUSD : string) (pre : list Step) : bool :=
  match pre with
  | [] => true
  | ReadFail _ :: _ => false
  | ReadFrame msg ctx :: pre' =>
      match decodeFrame lib XBTUSD ETHUSD msg with
      | None => passes lib XBTUSD ETHUSD pre'
      | Some _ =>
          match ctx with
          | Active => passes lib XBTUSD ETHUSD pre'
          | _ => false
          end
      end
  end.

(** The responses the loop sends for the steps [todo]. *)
Definition delivered (lib : JSONLib) (XBTUSD ETHUSD : string) (todo : list Step)
    : list Response :=
  fst (readLoop lib XBTUSD ETHUSD todo []).


(** No order book of the response has rows in [Asks]. *)
Definition noAsks (r : Response) : Prop :=
  Forall (fun book => Asks book = []) (r_Orderbook r).

(** The write outcomes that are errors. *)
Definition failures (outcomes : list (option error)) : list error := omap id outcomes.

(** A lowercase hexadecimal digit. *)
Definition isHexDigit (c : ascii) : bool :=
  existsb (Ascii.eqb c) (list_ascii_of_string "0123456789abcdef").

(** ** [strconv], for 64-bit [int] *)

Module Strconv.

Inductive NumError : Type := ErrSyntax | ErrRange.

Definition maxUint64 : Z := (2 ^ 64 - 1)%Z.

Definition digit (c : ascii) : option Z :=
  let n := Z.of_N (N_of_ascii c) in
  if ((48 <=? n) && (n <=? 57))%Z then Some (n - 48)%Z else None.

(** The loop of [ParseUint(s, 10, 64)] from the value [n]: a byte that
    is no decimal digit is a syntax error with value 0, an overflow a
    range error with the largest value. *)
Fixpoint parseDigits (s : string) (n : Z) : Z * option NumError :=
  match s with
  | EmptyString => (n, None)
  | String c s' =>
      match digit c with
      | None => (0%Z, Some ErrSyntax)
      | Some d =>
          if (maxUint64 <? n * 10 + d)%Z then (maxUint64, Some ErrRange)
          else parseDigits s' (n * 10 + d)%Z
      end
  end.

(** [strconv.ParseUint(s, 10, 64)] *)
Definition ParseUint (s : string) : Z * option NumError :=
  match s with
  | EmptyString => (0%Z, Some ErrSyntax)
  | _ => parseDigits s 0%Z
  end.

(** [strconv.ParseInt(s, 10, 64)]: one leading sign, then [ParseUint];
    a value out of range is cut to the nearest bound. *)
Definition ParseInt (s : string) : Z * option NumError :=
  match s with
  | EmptyString => (0%Z, Some ErrSyntax)
  | String c s' =>
      let neg := Ascii.eqb c "-" in
      let rest := if Ascii.eqb c "+" || neg then s' else s in
      match ParseUint rest with
      | (_, Some ErrSyntax) => (0%Z, Some ErrSyntax)
      | (un, _) =>
          let cutoff := (2 ^ 63)%Z in
          if negb neg && (cutoff <=? un)%Z then ((cutoff - 1)%Z, Some ErrRange)
          else if neg && (cutoff <? un)%Z then ((- cutoff)%Z, Some ErrRange)
          else ((if neg then - un else un)%Z, None)
      end
  end.

(** [strconv.Atoi(s)], for an [int] of 64 bits: its value and error are
    those of [ParseInt(s, 10, 0)]; the fast path for short strings
    computes the same. *)
Definition Atoi (s : string) : Z * option NumError := ParseInt s.

(** The value of a decimal numeral read from the left, [acc] being the
    value of the digits already read. *)
Fixpoint uintVal (d : Decimal.uint) (acc : Z) : Z :=
  match d with
  | Decimal.Nil => acc
  | Decimal.D0 l => uintVal l (acc * 10 + 0)
  | Decimal.D1 l => uintVal l (acc * 10 + 1)
  | Decimal.D2 l => uintVal l (acc * 10 + 2)
  | Decimal.D3 l => uintVal l (acc * 10 + 3)
  | Decimal.D4 l => uintVal l (acc * 10 + 4)
  | Decimal.D5 l => uintVal l (acc * 10 + 5)
  | Decimal.D6 l => uintVal l (acc * 10 + 6)
  | Decimal.D7 l => uintVal l (acc * 10 + 7)
  | Decimal.D8 l => uintVal l (acc * 10 + 8)
  | Decimal.D9 l => uintVal l (acc * 10 + 9)
  end.

End Strconv.

(** ** api_ilmit.go (package [bitmex]) *)

(** [time.Unix(sec, nsec)] and [t.After(u)], for seconds that
    [time.Time] holds without overflow. *)
Definition time_Unix (sec nsec : Z) : Time := (sec * Second + nsec)%Z.
Definition Time_After (t u : Time) : bool := (u <? t)%Z.

Module Bitmex.

Definition APIREMAIN : Z := 60.

(** [type Limit struct]; the field [Limit] is [Limit_]. *)
Record Limit : Type := mkLimit {
  Wait : Z;
  Limit_ : Z;
  Remain : Z;
  Reset : Time
}.

(** [func NewLimit(isPrivate bool) *Limit], with [now] for [time.Now()]. *)
Definition NewLimit (now : Time) (isPrivate : bool) : Limit :=
  if isPrivate
  then mkLimit 0 APIREMAIN APIREMAIN (Time_Add now Minute)
  else mkLimit 0 APIREMAIN APIREMAIN (Time_Add now Minute).

(** [func (p *Limit) toTime(t int64)] *)
Definition toTime (t : Z) (p : Limit) : Limit :=
  mkLimit (Wait p) (Limit_ p) (Remain p) (time_Unix t 10).

(** [func (p *Limit) FromHeader(h http.Header)]; [h] is [h.Get], which
    gives the empty string for a header that is absent. The error of
    [Atoi] and [ParseInt] is dropped and their value is stored. *)
Definition FromHeader (h : string -> string) (p : Limit) : Limit :=
  let wait := h "Retry-After" in
  let p1 :=
    if negb (String.eqb wait "")
    then mkLimit (fst (Strconv.Atoi wait)) (Limit_ p) (Remain p) (Reset p)
    else mkLimit 0 (Limit_ p) (Remain p) (Reset p) in
  let period := h "x-ratelimit-limit" in
  let p2 :=
    if negb (String.eqb period "")
    then mkLimit (Wait p1) (fst (Strconv.Atoi period)) (Remain p1) (Reset p1)
    else p1 in
  let remain := h "x-ratelimit-remaining" in
  let p3 :=
    if negb (String.eqb remain "")
    then mkLimit (Wait p2) (Limit_ p2) (fst (Strconv.Atoi remain)) (Reset p2)
    else p2 in
  let t := h "X-ratelimit-reset" in
  if negb (String.eqb t "")
  then toTime (fst (Strconv.ParseInt t)) p3
  else p3.

(** [func (p *Limit) Check() error]. [now] is [time.Now()] of the test
    against [Reset], [now'] the one printed in the error; [clock] is
    [Format("15:04:05")]. *)
Definition Check (clock : Time -> string) (now now' : Time) (p : Limit)
    : Limit * option error :=
  if (Remain p <=? 0)%Z then
    let p' :=
      if Time_After now (Reset p)
      then mkLimit (Wait p) (Limit_ p) (Limit_ p) (Reset p)
      else p in
    (p', Some ("api limit, has API Limit Remain:" +:+ formatInt (Remain p')
               +:+ ", Reset time: " +:+ clock (Reset p')
               +:+ "(" +:+ clock now' +:+ ")"))
  else (p, None).

(** Successive calls of [Check], each at its two readings of the
    clock: the limit they leave and the error of each call. *)
Fixpoint CheckAll (clock : Time -> string) (times : list (Time * Time)) (p : Limit)
    : Limit * list (option error) :=
  match times with
  | [] => (p, [])
  | (now, now') :: times' =>
      let '(p1, err) := Check clock now now' p in
      let '(p2, errs) := CheckAll clock times' p1 in
      (p2, err :: errs)
  end.

End Bitmex.

(** ** More of the sample world *)

Module Scenario.

(** A frame of the table [orderBook10] whose data is one order book. *)
Definition bookFrame : Sample.FrameText :=
  Sample.frameOf "orderBook10:XBTUSD" "update" ("[" +:+ Sample.bookText +:+ "]").

Definition frames : list Sample.FrameText :=
  [Sample.tradeFrame; Sample.liquidationFrame; Sample.pongFrame; bookFrame].

Definition lookupFrame (msg : string) : option Sample.FrameText :=
  List.find (fun f => String.eqb (Sample.text f) msg) frames.

(** [Sample.lib] with the frame [bookFrame] and the elements of its
    data. *)
Definition lib : JSONLib :=
  mkJSONLib
    (json_Unmarshal_map Sample.lib)
    (fmt_Sprintf_v Sample.lib)
    (time_Parse_RFC3339Nano Sample.lib)
    (fun msg key =>
       match lookupFrame msg with
       | Some f =>
           if String.eqb key "table" then Sample.table f
           else if String.eqb key "action" then Sample.action f
           else None
       | None => None
       end)
    (fun msg key =>
       match lookupFrame msg with
       | Some f => if String.eqb key "data" then Sample.data f else None
       | None => None
       end)
    (json_Unmarshal_rows Sample.lib)
    (fun dat =>
       if String.eqb dat ("[" +:+ Sample.bookText +:+ "]") then Some [Sample.bookText]
       else None).

(** Connections on which the first, or the second, write fails. *)
Definition firstWriteFails : Conn := mkConn [Some "broken pipe"] None [] 0.
Definition secondWriteFails : Conn := mkConn [None; Some "broken pipe"] None [] 0.

(** A connection on which the write of the teardown fails, and [Close]
    too. *)
Definition teardownFails : Conn :=
  mkConn [None; Some "use of closed connection"] (Some "already closed") [] 0.

(** The same for a session with a credential, whose third write is the
    one of the teardown. *)
Definition authTeardownFails : Conn :=
  mkConn [None; None; Some "use of closed connection"] (Some "already closed") [] 0.

Definition steps3 : list Step :=
  [ ReadFrame (Sample.text Sample.tradeFrame) Active;
    ReadFrame (Sample.text bookFrame) Active;
    ReadFail "unexpected EOF" ].

Definition env (c : Conn) (auth : option Auth) (todo : list Step) : Env :=
  mkEnv (inr c) auth 1518064238000000000%Z todo.

Definition connect (e : Env) : Result :=
  Connect lib "XBTUSD" "ETHUSD" e [] ["trade"; "orderBook10"] (Some ["XBTUSD"]).

(** The headers of a response of the REST interface. *)
Definition header (limit remaining reset : string) (key : string) : string :=
  if String.eqb key "x-ratelimit-limit" then limit
  else if String.eqb key "x-ratelimit-remaining" then remaining
  else if String.eqb key "X-ratelimit-reset" then reset
  else "".

Definition noHeader (key : string) : string := "".

(** A clock that prints the Unix second. *)
Definition clock (t : Time) : string := formatInt (Time_Unix t).

End Scenario.

(** ** Proof support *)

(** The two outcomes of the next write on the connection of [p]. *)
Ltac case_write p :=
  unfold WriteJSON;
  destruct (writeOutcomes (conn p)) as [|[?e|] ?outs].

(** Rewriting through the deferred calls of [Connect]. *)
Create Rewrite HintDb teardown.

(** * Part II: the properties *)

(** ** Order book rows *)

Lemma decodeRow_at (v : JValue) (pre rest : list Book) :
  decodeRow (length pre) v (pre ++ zeroBook :: rest) = pre ++ rowOf v :: rest.
Proof.
  assert (Hins : forall b : Book,
             <[length pre := b]> (pre ++ zeroBook :: rest) = pre ++ b :: rest).
  { intros b. rewrite insert_app_r_alt by lia.
    replace (length pre - length pre)%nat with 0%nat by lia. reflexivity. }
  destruct v as [| | | |l|]; try reflexivity.
  destruct l as [|b0 [|b1 [|b2 l]]]; try reflexivity.
  simpl. apply Hins.
Qed.

Lemma decodeRowsFrom_map (body : list JValue) :
  forall pre : list Book,
    decodeRowsFrom (length pre) body (pre ++ replicate (length body) zeroBook)
    = pre ++ map rowOf body.
Proof.
  induction body as [|v body IH]; intros pre.
  - reflexivity.
  - cbn [decodeRowsFrom length replicate map].
    rewrite decodeRow_at.
    specialize (IH (pre ++ [rowOf v])).
    rewrite length_app in IH. cbn [length] in IH.
    replace (length pre + 1)%nat with (S (length pre)) in IH by lia.
    rewrite <- !app_assoc in IH. exact IH.
Qed.

(** The loop over the rows is a map: the slice keeps one entry per element
    of the input, in place. *)
Lemma decodeRows_map (body : list JValue) : decodeRows body = map rowOf body.
Proof. exact (decodeRowsFrom_map body []). Qed.

Lemma decodeSides_arrays (in_ : gmap string JValue) (asks bids : list JValue)
    (p : OrderBook) :
  in_ !! "asks" = Some (JArray asks) ->
  in_ !! "bids" = Some (JArray bids) ->
  decodeSides in_ bookname p
  = (mkOrderBook (Symbol p) (Timestamp p) (decodeRows bids) (Asks p), None).
Proof.
  intros Ha Hb. unfold bookname. cbn [decodeSides].
  rewrite Ha, Hb. reflexivity.
Qed.

(** The iteration on [asks] takes the [else] branch: its rows go to
    [Bids], where the iteration on [bids] overwrites them. *)
Lemma decodeSides_asks_iteration (in_ : gmap string JValue) (asks : list JValue)
    (p : OrderBook) :
  in_ !! "asks" = Some (JArray asks) ->
  decodeSides in_ ["asks"] p
  = (mkOrderBook (Symbol p) (Timestamp p) (decodeRows asks) (Asks p), None).
Proof. intros Ha. cbn [decodeSides]. rewrite Ha. reflexivity. Qed.

Lemma decodeSides_not_arrays (in_ : gmap string JValue) (p : OrderBook) :
  isArray (in_ !! "asks") = false \/ isArray (in_ !! "bids") = false ->
  snd (decodeSides in_ bookname p) = Some "data has not type".
Proof.
  intros H. unfold bookname. cbn [decodeSides].
  destruct (in_ !! "asks") as [[| | | |asks|]|] eqn:Ha; try reflexivity.
  destruct (in_ !! "bids") as [[| | | |bids|]|] eqn:Hb; try reflexivity.
  destruct H as [H|H]; discriminate H.
Qed.

Lemma decodeSides_ok (in_ : gmap string JValue) (p p' : OrderBook) :
  decodeSides in_ bookname p = (p', None) ->
  exists asks bids,
    in_ !! "asks" = Some (JArray asks) /\ in_ !! "bids" = Some (JArray bids).
Proof.
  unfold bookname. cbn [decodeSides].
  destruct (in_ !! "asks") as [[| | | |asks|]|] eqn:Ha; try discriminate.
  destruct (in_ !! "bids") as [[| | | |bids|]|] eqn:Hb; try discriminate.
  intros _. exists asks, bids. split; reflexivity.
Qed.

(** C4, as the code has it. The two-row input of the specification decodes
    to its two rows. For every row list the decoded slice is the input
    mapped row by row, so it has the length of the input: an element that
    is not an array of two elements leaves the zero row at its index, and
    an array of two elements gives a row in which a non-numeric element
    reads as zero. No row makes the decoding of a message fail: with both
    sides present as arrays [decodeSides] returns a nil error. *)
Theorem decodeRows_row_by_row :
  decodeRows [ JArray [JNumber 7024.5%float; JNumber 200430%float];
               JArray [JNumber 7024.5%float; JNumber 200430%float] ]
  = [ mkBook 7024.5%float 200430%float; mkBook 7024.5%float 200430%float ]
  /\ (forall body : list JValue,
        decodeRows body = map rowOf body
        /\ length (decodeRows body) = length body
        /\ (forall (i : nat) (v : JValue),
              body !! i = Some v ->
              decodeRows body !! i = Some (rowOf v)
              /\ (forall b0 b1, v = JArray [b0; b1] ->
                    rowOf v = mkBook (asFloat64 b0) (asFloat64 b1))
              /\ ((forall b0 b1, v <> JArray [b0; b1]) -> rowOf v = zeroBook)))
  /\ (forall (in_ : gmap string JValue) (asks bids : list JValue) (p : OrderBook),
        in_ !! "asks" = Some (JArray asks) ->
        in_ !! "bids" = Some (JArray bids) ->
        snd (decodeSides in_ bookname p) = None).
Proof.
  split; [reflexivity|]. split.
  - intros body. rewrite decodeRows_map. split; [reflexivity|].
    split; [apply length_map|].
    intros i v Hv. split; [|split].
    + rewrite list_lookup_fmap, Hv. reflexivity.
    + intros b0 b1 ->. reflexivity.
    + intros Hne. destruct v as [| | | |l|]; try reflexivity.
      destruct l as [|b0 [|b1 [|b2 l]]]; try reflexivity.
      exfalso. exact (Hne b0 b1 eq_refl).
  - intros in_ asks bids p Ha Hb.
    rewrite (decodeSides_arrays in_ asks bids p Ha Hb). reflexivity.
Qed.

(** C4 as stated fails: a row of three elements and a row with a
    non-numeric element each leave a row in the result. *)
Lemma decodeRows_keeps_malformed_rows :
  decodeRows [ JArray [JNumber 1%float; JNumber 2%float; JNumber 3%float];
               JArray [JNumber 7024.5%float; JNumber 200430%float] ]
  = [ zeroBook; mkBook 7024.5%float 200430%float ]
  /\ decodeRows [ JArray [JString "a"; JNumber 5%float] ]
     = [ mkBook 0%float 5%float ].
Proof. split; reflexivity. Qed.

(** ** [OrderBook.UnmarshalJSON] *)

(** C3. When [UnmarshalJSON] succeeds both sides are arrays in the decoded
    map, the rows under [asks] are not stored in [Asks], which keeps the
    value the receiver came with (empty, for the fresh receiver of a
    decode), and [Bids] holds the rows under [bids]. *)
Theorem UnmarshalJSON_bids_win (lib : JSONLib) (p p' : OrderBook) (b : string) :
  UnmarshalJSON lib p b = (p', None) ->
  exists (in_ : gmap string JValue) (asks bids : list JValue),
    json_Unmarshal_map lib b = inr in_
    /\ in_ !! "asks" = Some (JArray asks)
    /\ in_ !! "bids" = Some (JArray bids)
    /\ Asks p' = Asks p
    /\ (p = zeroOrderBook -> Asks p' = [])
    /\ Bids p' = decodeRows bids.
Proof.
  unfold UnmarshalJSON.
  destruct (json_Unmarshal_map lib b) as [err|in_] eqn:Hin; [discriminate|].
  intros H.
  destruct (decodeSides_ok _ _ _ H) as (asks & bids & Ha & Hb).
  rewrite (decodeSides_arrays in_ asks bids _ Ha Hb) in H.
  injection H as <-.
  exists in_, asks, bids. cbn [Asks Bids].
  repeat split; try assumption; try reflexivity.
  intros ->. reflexivity.
Qed.

Lemma UnmarshalJSON_bids_win_witness :
  exists (in_ : gmap string JValue) (asks bids : list JValue),
    json_Unmarshal_map Sample.lib Sample.bookText = inr in_
    /\ in_ !! "asks" = Some (JArray asks)
    /\ in_ !! "bids" = Some (JArray bids)
    /\ Asks (fst (UnmarshalJSON Sample.lib zeroOrderBook Sample.bookText))
       = Asks zeroOrderBook
    /\ (zeroOrderBook = zeroOrderBook ->
        Asks (fst (UnmarshalJSON Sample.lib zeroOrderBook Sample.bookText)) = [])
    /\ Bids (fst (UnmarshalJSON Sample.lib zeroOrderBook Sample.bookText))
       = decodeRows bids.
Proof.
  apply (UnmarshalJSON_bids_win Sample.lib zeroOrderBook _ Sample.bookText).
  vm_compute. reflexivity.
Defined.

(** C10. When the decoded map has no array under [asks] or under [bids]
    (the key is absent, or holds another kind of value), [UnmarshalJSON]
    returns the error [data has not type]. *)
Theorem UnmarshalJSON_needs_both_arrays (lib : JSONLib) (p : OrderBook) (b : string)
    (in_ : gmap string JValue) :
  json_Unmarshal_map lib b = inr in_ ->
  isArray (in_ !! "asks") = false \/ isArray (in_ !! "bids") = false ->
  snd (UnmarshalJSON lib p b) = Some "data has not type".
Proof.
  intros Hin H. unfold UnmarshalJSON. rewrite Hin.
  apply decodeSides_not_arrays. exact H.
Qed.

Lemma UnmarshalJSON_needs_both_arrays_witness :
  snd (UnmarshalJSON Sample.lib zeroOrderBook Sample.asksOnlyText)
  = Some "data has not type".
Proof.
  apply (UnmarshalJSON_needs_both_arrays Sample.lib zeroOrderBook
           Sample.asksOnlyText Sample.asksOnlyMap).
  - vm_compute. reflexivity.
  - right. vm_compute. reflexivity.
Defined.

(** ** Strings *)

Lemma append_cons (a : ascii) (s t : string) :
  String a s +:+ t = String a (s +:+ t).
Proof. reflexivity. Qed.

Lemma sliceFrom_append (p t : string) (n : nat) :
  GoStrings.sliceFrom (String.length p + n) (p +:+ t) = GoStrings.sliceFrom n t.
Proof.
  induction p as [|a p IH].
  - reflexivity.
  - rewrite append_cons. simpl. exact IH.
Qed.

Lemma Index_cons (b : ascii) (s sub : string) :
  GoStrings.Index (String b s) sub
  = if GoStrings.HasPrefix (String b s) sub then 0%Z
    else if (GoStrings.Index s sub <? 0)%Z then (-1)%Z
         else (GoStrings.Index s sub + 1)%Z.
Proof. reflexivity. Qed.

Lemma HasPrefix_colon (b : ascii) (s : string) :
  GoStrings.HasPrefix (String b s) ":" = Ascii.eqb ":" b.
Proof.
  change (GoStrings.HasPrefix (String b s) ":")
    with (if Ascii.eqb ":" b then true else false).
  destruct (Ascii.eqb ":" b); reflexivity.
Qed.

Lemma Contains_cons_false (a : ascii) (p : string) :
  GoStrings.Contains (String a p) ":" = false ->
  Ascii.eqb ":" a = false /\ GoStrings.Contains p ":" = false.
Proof.
  unfold GoStrings.Contains. rewrite Index_cons, HasPrefix_colon.
  destruct (Ascii.eqb ":" a).
  - discriminate.
  - intros H. split; [reflexivity|].
    destruct (GoStrings.Index p ":" <? 0)%Z eqn:Hi.
    + apply Z.leb_gt. apply Z.ltb_lt in Hi. exact Hi.
    + apply Z.ltb_ge in Hi. apply Z.leb_gt in H. lia.
Qed.

(** In [prefix:symbol] with no colon in [prefix], the first colon is at
    the length of [prefix]. *)
Lemma Index_first_colon (p s : string) :
  GoStrings.Contains p ":" = false ->
  GoStrings.Index (p +:+ ":" +:+ s) ":" = Z.of_nat (String.length p).
Proof.
  induction p as [|a p IH]; intros H.
  - reflexivity.
  - apply Contains_cons_false in H. destruct H as [Ha Hp].
    rewrite append_cons, Index_cons, HasPrefix_colon, Ha.
    rewrite (IH Hp). cbn [String.length].
    destruct (Z.of_nat (String.length p) <? 0)%Z eqn:Hl.
    + apply Z.ltb_lt in Hl. lia.
    + lia.
Qed.

(** ** C5: the product code of a topic *)

(** C5, as the code has it. For a topic [prefix:symbol] with no colon in
    [prefix], the product code is the first of [XBTUSD], [ETHUSD] and
    [XRPUSD] that the topic ends with, and the text after the first colon
    when it ends with none of them. *)
Theorem productCode_of_topic (XBTUSD ETHUSD prefix symbol : string) :
  GoStrings.Contains prefix ":" = false ->
  productCode XBTUSD ETHUSD (prefix +:+ ":" +:+ symbol)
  = if GoStrings.HasSuffix (prefix +:+ ":" +:+ symbol) XBTUSD then XBTUSD
    else if GoStrings.HasSuffix (prefix +:+ ":" +:+ symbol) ETHUSD then ETHUSD
    else if GoStrings.HasSuffix (prefix +:+ ":" +:+ symbol) "XRPUSD" then "XRPUSD"
    else symbol.
Proof.
  intros H. unfold productCode.
  destruct (GoStrings.HasSuffix _ XBTUSD); [reflexivity|].
  destruct (GoStrings.HasSuffix _ ETHUSD); [reflexivity|].
  destruct (GoStrings.HasSuffix _ "XRPUSD"); [reflexivity|].
  unfold GoStrings.Contains. rewrite (Index_first_colon prefix symbol H).
  replace (0 <=? Z.of_nat (String.length prefix))%Z with true
    by (symmetry; apply Z.leb_le; lia).
  replace (Z.to_nat (Z.of_nat (String.length prefix) + 1))
    with (String.length prefix + 1)%nat by lia.
  rewrite sliceFrom_append. reflexivity.
Qed.

Lemma productCode_of_topic_witness :
  productCode "XBTUSD" "ETHUSD" ("instrument" +:+ ":" +:+ ".BXBT") = ".BXBT".
Proof.
  apply (productCode_of_topic "XBTUSD" "ETHUSD" "instrument" ".BXBT").
  reflexivity.
Defined.

(** C5 as stated fails on a symbol that ends with a known one: the known
    symbol is derived, not the text after the colon. *)
Lemma productCode_known_suffix_wins :
  GoStrings.Contains "trade" ":" = false
  /\ productCode "XBTUSD" "ETHUSD" ("trade" +:+ ":" +:+ "TXRPUSD") = "XRPUSD"
  /\ "XRPUSD" <> "TXRPUSD".
Proof. split; [reflexivity|]. split; [reflexivity|discriminate]. Qed.

(** ** C6: the subscribe request *)

Lemma fold_left_snoc {A B : Type} (f : A -> B) (l : list A) (acc : list B) :
  fold_left (fun args x => args ++ [f x]) l acc = acc ++ map f l.
Proof.
  revert acc. induction l as [|x l IH]; intros acc; simpl.
  - symmetry. apply app_nil_r.
  - rewrite IH, <- app_assoc. reflexivity.
Qed.

Lemma fold_left_cross (channels symbols : list string) (acc : list Arg) :
  fold_left
    (fun args c =>
       fold_left (fun args s => args ++ [ArgString (c +:+ ":" +:+ s)]) symbols args)
    channels acc
  = acc ++ crossProduct channels symbols.
Proof.
  revert acc. induction channels as [|c channels IH]; intros acc; simpl.
  - symmetry. apply app_nil_r.
  - rewrite IH, fold_left_snoc, <- app_assoc. reflexivity.
Qed.

Lemma subscribeArgs_spec (channels : list string) (symbols : option (list string)) :
  subscribeArgs channels symbols
  = match symbols with
    | Some ss => crossProduct channels ss
    | None => map ArgString channels
    end.
Proof.
  destruct symbols as [ss|]; unfold subscribeArgs.
  - apply fold_left_cross.
  - apply (fold_left_snoc ArgString).
Qed.

Lemma crossProduct_no_symbols (channels : list string) : crossProduct channels [] = [].
Proof. induction channels as [|c channels IH]; [reflexivity|exact IH]. Qed.

(** C6, as the code has it. [subscribe] builds and writes exactly one
    request, for any channel list. With a non-empty symbol list its
    arguments are the cross product, channel by channel; with a nil
    symbol list they are the bare channel names in order; with a symbol
    list that is empty but not nil there are no arguments. The request is
    returned when its write succeeds. *)
Theorem subscribe_one_request (p : Client) (channels : list string)
    (symbols : option (list string)) :
  let args :=
    match symbols with
    | Some [] => []
    | Some (s :: ss) => crossProduct channels (s :: ss)
    | None => map ArgString channels
    end in
  let req := mkRequest "subscribe" args 0 in
  let '(p', requests, err) := subscribe p channels symbols in
  written (conn p') = written (conn p) ++ [(JSONFrame req, err)]
  /\ requests = match err with None => [req] | Some _ => [] end.
Proof.
  intros args req. unfold subscribe.
  assert (Hargs : subscribeArgs channels symbols = args).
  { rewrite subscribeArgs_spec. subst args.
    destruct symbols as [[|s ss]|]; try reflexivity.
    apply crossProduct_no_symbols. }
  rewrite Hargs. fold req. cbn [writeRequests].
  case_write p; cbn; split; reflexivity.
Qed.

(** C6 as stated fails on a symbol list that is empty but not nil: the
    request has no arguments, not the bare channel names. *)
Lemma subscribe_empty_symbols :
  snd (fst (subscribe (mkClient Sample.freshConn None []) ["order"] (Some [])))
  = [mkRequest "subscribe" [] 0]
  /\ snd (fst (subscribe (mkClient Sample.freshConn None []) ["order"] None))
     = [mkRequest "subscribe" [ArgString "order"] 0].
Proof. split; reflexivity. Qed.

(** The example of the specification. *)
Example subscribe_trade_quote :
  subscribeArgs ["trade"; "quote"] (Some ["XBTUSD"; "ETHUSD"])
  = [ ArgString "trade:XBTUSD"; ArgString "trade:ETHUSD";
      ArgString "quote:XBTUSD"; ArgString "quote:ETHUSD" ].
Proof. reflexivity. Qed.

(** ** C7: the authentication request *)

Lemma expire_24h (now : Time) :
  Time_Unix (Time_Add now (24 * 60 * Minute)) = (Time_Unix now + 86400)%Z.
Proof.
  unfold Time_Unix, Time_Add.
  change (24 * 60 * Minute)%Z with (86400 * Second)%Z.
  apply Z.div_add. discriminate.
Qed.

(** C7. [signture] writes one request, [authKeyExpires] with id 1, whose
    arguments are in order the key, the expiry and the signature: the
    expiry is the Unix time of [now] plus 24 hours in seconds, the
    signature the hexadecimal HMAC-SHA256, keyed by the secret, of
    [GET/realtime] followed by the expiry in decimal. *)
Theorem signture_request (now : Time) (auth : Auth) (p : Client) :
  let expire := (Time_Unix now + 86400)%Z in
  let sign :=
    Crypto.EncodeToString
      (Crypto.hmac_sha256 (Crypto.bytesOf (Secret auth))
                          (Crypto.bytesOf ("GET/realtime" +:+ formatInt expire))) in
  let '(p', err) := signture now auth p in
  written (conn p')
  = written (conn p)
    ++ [(JSONFrame
           (mkRequest "authKeyExpires"
                      [ArgString (Key auth); ArgInt64 expire; ArgString sign] 1),
         err)].
Proof.
  intros expire sign. unfold signture. rewrite expire_24h.
  fold expire. fold sign. case_write p; reflexivity.
Qed.

(** SHA-256 and HMAC-SHA256 on known vectors (FIPS 180-2, RFC 4231). *)
Example sha256_abc :
  Crypto.EncodeToString (Crypto.sha256 (Crypto.bytesOf "abc"))
  = "ba7816bf8f01cfea414140de5dae2223b00361a396177a9cb410ff61f20015ad".
Proof. vm_compute. reflexivity. Qed.

Example hmac_sha256_rfc4231_2 :
  Crypto.EncodeToString
    (Crypto.hmac_sha256 (Crypto.bytesOf "Jefe")
                        (Crypto.bytesOf "what do ya want for nothing?"))
  = "5bdcc146bf60754e6a042426089575c75a003f089d2739839dec58b964ec3843".
Proof. vm_compute. reflexivity. Qed.

(** The request of the key [key-id] with secret [secret] at Unix time
    1518064238. *)
Example signture_sample :
  written (conn (fst (signture 1518064238000000000%Z Sample.auth
                               (mkClient Sample.freshConn (Some Sample.auth) []))))
  = [(JSONFrame
        (mkRequest "authKeyExpires"
           [ ArgString "key-id"; ArgInt64 1518150638;
             ArgString "3b7f70237d32372962889d9442d5315fc0eee2b4b744dc8422c3a9fceab96717" ]
           1),
      None)].
Proof. vm_compute. reflexivity. Qed.

(** ** The session *)

Section Session.

Variable lib : JSONLib.
Variables XBTUSD ETHUSD : string.

(** Once the session streams, [Connect] is the read loop followed by the
    log of its error, the deferred [unsubscribe] and the deferred
    [Close]. *)
Lemma Connect_streaming (env : Env) (ch : list Response) (channels : list string)
    (symbols : option (list string)) (p : Client) (requests : list Request) :
  streaming env channels symbols = Some (p, requests) ->
  Connect lib XBTUSD ETHUSD env ch channels symbols
  = let e := snd (readLoop lib XBTUSD ETHUSD (steps env) ch) in
    mkResult
      (Returns (if GoStrings.Contains e "context canceled"
                then Some ("context stop outside " +:+ e) else None))
      (Some (fst (Close (unsubscribe (logf p (LogError e)) requests))))
      (fst (readLoop lib XBTUSD ETHUSD (steps env) ch)).
Proof.
  unfold streaming, Connect.
  destruct (New env) as [p0|]; [|discriminate].
  destruct (match ClientAuth p0 with
            | Some auth => signture (clock env) auth p0
            | None => (p0, None)
            end) as [p1 [e|]]; [discriminate|].
  destruct (subscribe p1 channels symbols) as [[p2 reqs] [e|]]; [discriminate|].
  intros H. injection H as -> ->.
  destruct (readLoop lib XBTUSD ETHUSD (steps env) ch) as [ch' e].
  reflexivity.
Qed.

(** The loop ends on the read error, wrapped. *)
Lemma readLoop_failsWith (todo : list Step) (err : error) :
  failsWith lib XBTUSD ETHUSD todo err ->
  forall ch : list Response,
    snd (readLoop lib XBTUSD ETHUSD todo ch) = "can't receive error: " +:+ err.
Proof.
  induction 1 as [|err todo|msg ctx todo err Hd _ IH|msg r todo err Hd _ IH];
    intros ch; cbn [readLoop].
  - reflexivity.
  - reflexivity.
  - rewrite Hd. apply IH.
  - rewrite Hd. cbn [ctx_Err]. apply IH.
Qed.

(** The loop leaves by the error of the context or by a wrapped read
    error, and by nothing else. *)
Lemma readLoop_exit (todo : list Step) :
  forall ch : list Response,
    let e := snd (readLoop lib XBTUSD ETHUSD todo ch) in
    e = "context canceled" \/ e = "context deadline exceeded"
    \/ exists err, e = "can't receive error: " +:+ err.
Proof.
  induction todo as [|[msg ctx|err] todo IH]; intros ch; cbn [readLoop].
  - right. right. exists readTimeout. reflexivity.
  - destruct (decodeFrame lib XBTUSD ETHUSD msg) as [r|]; [|apply IH].
    destruct ctx; cbn [ctx_Err].
    + apply IH.
    + left. reflexivity.
    + right. left. reflexivity.
  - right. right. exists err. reflexivity.
Qed.

(** The channel only grows, and the loop sends nothing after it has seen
    the context done. *)
Lemma readLoop_channel (todo : list Step) :
  forall ch : list Response,
    exists sent, fst (readLoop lib XBTUSD ETHUSD todo ch) = ch ++ sent.
Proof.
  induction todo as [|[msg ctx|err] todo IH]; intros ch; cbn [readLoop].
  - exists []. symmetry. apply app_nil_r.
  - destruct (decodeFrame lib XBTUSD ETHUSD msg) as [r|]; [|apply IH].
    destruct (ctx_Err ctx) as [cerr|].
    + exists []. symmetry. apply app_nil_r.
    + destruct (IH (ch ++ [r])) as [sent Hsent].
      exists (r :: sent). rewrite Hsent, <- app_assoc. reflexivity.
  - exists []. symmetry. apply app_nil_r.
Qed.

End Session.

(** ** Teardown: what [unsubscribe] and [Close] change *)

Lemma written_unsubscribeEach (requests : list Request) :
  forall p : Client,
    map fst (written (conn (unsubscribeEach p requests)))
    = map fst (written (conn p))
      ++ map (fun q => JSONFrame (mkRequest "unsubscribe" (Args q) (ID q))) requests.
Proof.
  induction requests as [|q requests IH]; intros p; cbn [unsubscribeEach map].
  - symmetry. apply app_nil_r.
  - case_write p; rewrite IH; cbn; rewrite map_app, <- app_assoc; reflexivity.
Qed.

Lemma killed_unsubscribeEach (requests : list Request) :
  forall p : Client,
    List.filter isKilledSubscribe (log (unsubscribeEach p requests))
    = List.filter isKilledSubscribe (log p).
Proof.
  induction requests as [|q requests IH]; intros p; cbn [unsubscribeEach].
  - reflexivity.
  - case_write p; rewrite IH; cbn;
      rewrite ?List.filter_app, ?app_nil_r; reflexivity.
Qed.

Lemma closes_unsubscribeEach (requests : list Request) :
  forall p : Client, closes (conn (unsubscribeEach p requests)) = closes (conn p).
Proof.
  induction requests as [|q requests IH]; intros p; cbn [unsubscribeEach];
    [reflexivity|].
  case_write p; rewrite IH; reflexivity.
Qed.

Lemma log_unsubscribeEach (l : LogLine) (requests : list Request) :
  forall p : Client, In l (log p) -> In l (log (unsubscribeEach p requests)).
Proof.
  induction requests as [|q requests IH]; intros p Hl; cbn [unsubscribeEach].
  - exact Hl.
  - case_write p; apply IH; cbn; try exact Hl.
    all: apply in_or_app; left; exact Hl.
Qed.

Lemma Close_written (p : Client) : written (conn (fst (Close p))) = written (conn p).
Proof. unfold Close. destruct (closeOutcome (conn p)); reflexivity. Qed.

Lemma Close_killed (p : Client) :
  List.filter isKilledSubscribe (log (fst (Close p)))
  = List.filter isKilledSubscribe (log p).
Proof.
  unfold Close. destruct (closeOutcome (conn p)); cbn; [|reflexivity].
  rewrite List.filter_app. apply app_nil_r.
Qed.

Lemma Close_closes (p : Client) : closes (conn (fst (Close p))) = S (closes (conn p)).
Proof. unfold Close. destruct (closeOutcome (conn p)); reflexivity. Qed.

Lemma log_Close (l : LogLine) (p : Client) : In l (log p) -> In l (log (fst (Close p))).
Proof.
  intros Hl. unfold Close. destruct (closeOutcome (conn p)); cbn; [|exact Hl].
  apply in_or_app. left. exact Hl.
Qed.

Lemma unsubscribe_conn (p : Client) (requests : list Request) :
  conn (unsubscribe p requests) = conn (unsubscribeEach p requests).
Proof. reflexivity. Qed.

Lemma unsubscribe_log (p : Client) (requests : list Request) :
  log (unsubscribe p requests) = log (unsubscribeEach p requests) ++ [LogKilledSubscribe].
Proof. reflexivity. Qed.

Lemma killed_subscribed (requests : list Request) :
  List.filter isKilledSubscribe (map LogSubscribed requests) = [].
Proof. induction requests as [|q requests IH]; [reflexivity|exact IH]. Qed.

#[global] Hint Rewrite Close_written Close_killed Close_closes unsubscribe_conn
  unsubscribe_log written_unsubscribeEach killed_unsubscribeEach
  closes_unsubscribeEach killed_subscribed List.filter_app : teardown.

(** [signture] is one write, of the request [authRequest]. *)
Lemma signture_writes (now : Time) (auth : Auth) (p : Client) :
  signture now auth p
  = (setConn p (fst (WriteJSON (conn p) (authRequest now auth))),
     snd (WriteJSON (conn p) (authRequest now auth))).
Proof. reflexivity. Qed.

(** A client that enters the read loop has printed nothing but its
    subscription, and the last write on its connection is the subscribe
    request, which succeeded. *)
Lemma streaming_state (env : Env) (channels : list string)
    (symbols : option (list string)) (p : Client) (requests : list Request) :
  streaming env channels symbols = Some (p, requests) ->
  requests = [mkRequest "subscribe" (subscribeArgs channels symbols) 0]
  /\ log p = map LogSubscribed requests
  /\ exists pre,
       written (conn p)
       = pre ++ [(JSONFrame (mkRequest "subscribe" (subscribeArgs channels symbols) 0),
                  None)].
Proof.
  unfold streaming, New.
  destruct (dial env) as [derr|c]; [discriminate|].
  cbn [ClientAuth].
  destruct (ctxAuth env) as [auth|].
  - rewrite signture_writes. unfold subscribe, WriteJSON. cbn.
    destruct (writeOutcomes c) as [|[e|] [|[e'|] outs]]; cbn; try discriminate;
      intros H; injection H as <- <-; cbn;
      (split; [reflexivity|]); (split; [reflexivity|]);
      eexists; reflexivity.
  - unfold subscribe, WriteJSON. cbn.
    destruct (writeOutcomes c) as [|[e|] outs]; cbn; try discriminate;
      intros H; injection H as <- <-; cbn;
      (split; [reflexivity|]); (split; [reflexivity|]);
      eexists; reflexivity.
Qed.

Section SessionProperties.

Variable lib : JSONLib.
Variables XBTUSD ETHUSD : string.

(** C1, as the code has it. In a streaming session whose read path fails
    with [err] (a failed read, or the deadline passing with no frame),
    [Connect] prints the wrapped error and returns nil; only when the
    text of the wrapped error contains [context canceled] does it return
    an error, [context stop outside] followed by that text. *)
Theorem Connect_read_error (env : Env) (ch : list Response) (channels : list string)
    (symbols : option (list string)) (p : Client) (requests : list Request)
    (err : error) :
  streaming env channels symbols = Some (p, requests) ->
  failsWith lib XBTUSD ETHUSD (steps env) err ->
  let e := "can't receive error: " +:+ err in
  let r := Connect lib XBTUSD ETHUSD env ch channels symbols in
  outcome r
  = Returns (if GoStrings.Contains e "context canceled"
             then Some ("context stop outside " +:+ e) else None)
  /\ exists p', client r = Some p' /\ In (LogError e) (log p').
Proof.
  intros Hs Hf e r. subst r.
  rewrite (Connect_streaming lib XBTUSD ETHUSD env ch channels symbols p requests Hs).
  cbv zeta. rewrite (readLoop_failsWith lib XBTUSD ETHUSD _ _ Hf ch). fold e.
  cbn [outcome client]. split; [reflexivity|].
  eexists. split; [reflexivity|].
  apply log_Close. unfold unsubscribe, logf at 1. cbn [log].
  apply in_or_app. left. apply log_unsubscribeEach.
  unfold logf. cbn [log]. apply in_or_app. right. left. reflexivity.
Qed.

(** C2, on the code. When the dial fails [New] returns a nil client and
    [Connect] panics on [p.Auth]: nothing is written, read or sent, and no
    error is returned. *)
Theorem Connect_dial_failure (env : Env) (ch : list Response) (channels : list string)
    (symbols : option (list string)) (derr : error) :
  dial env = inl derr ->
  Connect lib XBTUSD ETHUSD env ch channels symbols = mkResult Panics None ch.
Proof.
  intros Hd. unfold Connect, New. rewrite Hd. reflexivity.
Qed.

Lemma switchTable_default (name : string) (cases : list (string * Types)) :
  Forall (fun c => GoStrings.HasPrefix name (fst c) = false) cases ->
  switchTable cases name = None.
Proof.
  induction 1 as [|[prefix t] cases Hc _ IH]; cbn [switchTable].
  - reflexivity.
  - cbn [fst] in Hc. rewrite Hc. exact IH.
Qed.

(** C8, as the code has it. A frame with a table and data whose topic
    starts with none of the prefixes of the switch gives a [Response] of
    type [Undefined] whose [Results] is the text of the frame. The loop
    sends it on the channel when the context is still active at the
    checkpoint after the decoding; when the context is done there, the
    loop returns the error of the context and the channel is left as it
    was. *)
Theorem undefined_topic_event (msg name data : string) (todo : list Step)
    (ch : list Response) :
  jsonparser_GetString lib msg "table" = Some name ->
  jsonparser_Get lib msg "data" = Some data ->
  Forall (fun c => GoStrings.HasPrefix name (fst c) = false) tableCases ->
  exists r : Response,
    decodeFrame lib XBTUSD ETHUSD msg = Some r
    /\ r_Types r = Undefined
    /\ r_Results r = Some msg
    /\ readLoop lib XBTUSD ETHUSD (ReadFrame msg Active :: todo) ch
       = readLoop lib XBTUSD ETHUSD todo (ch ++ [r])
    /\ (forall (ctx : CtxState) (cerr : error),
          ctx_Err ctx = Some cerr ->
          readLoop lib XBTUSD ETHUSD (ReadFrame msg ctx :: todo) ch = (ch, cerr)).
Proof.
  intros Ht Hd Hp.
  assert (Hdec : exists r, decodeFrame lib XBTUSD ETHUSD msg = Some r
                           /\ r_Types r = Undefined /\ r_Results r = Some msg).
  { unfold decodeFrame. rewrite Ht, Hd, (switchTable_default name tableCases Hp).
    eexists. split; [reflexivity|]. split; reflexivity. }
  destruct Hdec as (r & Hr & Hty & Hres).
  exists r. repeat split; try assumption.
  - cbn [readLoop]. rewrite Hr. reflexivity.
  - intros ctx cerr Hc. cbn [readLoop]. rewrite Hr, Hc. reflexivity.
Qed.

(** A frame without a table or without data is passed over: nothing is
    sent for it and the loop goes on, whatever the context. *)
Lemma readLoop_control_frame (msg : string) (ctx : CtxState) (todo : list Step)
    (ch : list Response) :
  jsonparser_GetString lib msg "table" = None
  \/ jsonparser_Get lib msg "data" = None ->
  readLoop lib XBTUSD ETHUSD (ReadFrame msg ctx :: todo) ch
  = readLoop lib XBTUSD ETHUSD todo ch.
Proof.
  intros H. cbn [readLoop].
  assert (Hd : decodeFrame lib XBTUSD ETHUSD msg = None).
  { unfold decodeFrame.
    destruct (jsonparser_GetString lib msg "table") as [name|]; [|reflexivity].
    destruct H as [H|H]; [discriminate|]. rewrite H. reflexivity. }
  rewrite Hd. reflexivity.
Qed.

(** A topic with no colon that ends with none of the known symbols has
    the product code [undefined]. *)
Lemma productCode_undefined (name : string) :
  GoStrings.HasSuffix name XBTUSD = false ->
  GoStrings.HasSuffix name ETHUSD = false ->
  GoStrings.HasSuffix name "XRPUSD" = false ->
  GoStrings.Contains name ":" = false ->
  productCode XBTUSD ETHUSD name = "undefined".
Proof. unfold productCode. intros -> -> -> ->. reflexivity. Qed.

(** C9. In a session whose subscribe requests were written, [Connect]
    leaves the read loop by the error of the context or by a read error,
    and in either case the teardown runs [unsubscribe] once: the writes
    attempted after the subscribe request are the subscribe requests with
    the operation [unsubscribe] and the same arguments, each once and in
    order, the line [killed subscribe] is printed once, and the connection
    is then closed once. *)
Theorem unsubscribe_once (env : Env) (ch : list Response) (channels : list string)
    (symbols : option (list string)) (p : Client) (requests : list Request) :
  streaming env channels symbols = Some (p, requests) ->
  let e := snd (readLoop lib XBTUSD ETHUSD (steps env) ch) in
  let args := subscribeArgs channels symbols in
  (e = "context canceled" \/ e = "context deadline exceeded"
   \/ exists err, e = "can't receive error: " +:+ err)
  /\ requests = [mkRequest "subscribe" args 0]
  /\ (exists pre,
        map fst (written (conn p)) = pre ++ [JSONFrame (mkRequest "subscribe" args 0)])
  /\ exists p' : Client,
       client (Connect lib XBTUSD ETHUSD env ch channels symbols) = Some p'
       /\ map fst (written (conn p'))
          = map fst (written (conn p))
            ++ map (fun q => JSONFrame (mkRequest "unsubscribe" (Args q) (ID q)))
                   requests
       /\ map fst (written (conn p'))
          = map fst (written (conn p)) ++ [JSONFrame (mkRequest "unsubscribe" args 0)]
       /\ length (List.filter isKilledSubscribe (log p')) = 1%nat
       /\ closes (conn p') = S (closes (conn p)).
Proof.
  intros Hs e args.
  destruct (streaming_state env channels symbols p requests Hs)
    as (Hreq & Hlog & pre & Hpre).
  split; [apply readLoop_exit|].
  split; [exact Hreq|].
  split. { exists (map fst pre). rewrite Hpre, map_app. reflexivity. }
  rewrite (Connect_streaming lib XBTUSD ETHUSD env ch channels symbols p requests Hs).
  cbv zeta. fold e. cbn [client].
  eexists. split; [reflexivity|].
  autorewrite with teardown. cbn [log conn logf].
  autorewrite with teardown. rewrite Hlog. autorewrite with teardown.
  repeat split.
  rewrite Hreq. reflexivity.
Qed.

End SessionProperties.

(** ** The properties on the sample world *)

Lemma droppedEnv_failsWith :
  failsWith Sample.lib "XBTUSD" "ETHUSD" (steps Sample.droppedEnv) "unexpected EOF".
Proof.
  eapply failsWith_sent; [vm_compute; reflexivity|].
  eapply failsWith_dropped; [vm_compute; reflexivity|].
  apply failsWith_fail.
Qed.

Lemma Connect_read_error_witness :
  outcome (Sample.connect Sample.droppedEnv) = Returns None
  /\ exists p',
       client (Sample.connect Sample.droppedEnv) = Some p'
       /\ In (LogError "can't receive error: unexpected EOF") (log p').
Proof.
  refine (Connect_read_error Sample.lib "XBTUSD" "ETHUSD" Sample.droppedEnv []
            ["trade"] (Some ["XBTUSD"]) _ _ "unexpected EOF" _ _).
  - vm_compute. reflexivity.
  - eapply failsWith_sent; [vm_compute; reflexivity|].
    eapply failsWith_dropped; [vm_compute; reflexivity|].
    apply failsWith_fail.
Defined.

(** C1 as stated fails: the session streams, the read fails with
    [unexpected EOF], and [Connect] returns nil. *)
Lemma Connect_read_error_returns_nil :
  (exists p requests,
      streaming Sample.droppedEnv ["trade"] (Some ["XBTUSD"]) = Some (p, requests))
  /\ failsWith Sample.lib "XBTUSD" "ETHUSD" (steps Sample.droppedEnv) "unexpected EOF"
  /\ outcome (Sample.connect Sample.droppedEnv) = Returns None.
Proof.
  split; [|split].
  - eexists. eexists. vm_compute. reflexivity.
  - exact droppedEnv_failsWith.
  - vm_compute. reflexivity.
Qed.

Lemma Connect_dial_failure_witness :
  Sample.connect Sample.unreachableEnv = mkResult Panics None [].
Proof.
  apply (Connect_dial_failure Sample.lib "XBTUSD" "ETHUSD" Sample.unreachableEnv []
           ["trade"] (Some ["XBTUSD"]) "dial tcp: i/o timeout").
  reflexivity.
Defined.

Lemma undefined_topic_event_witness :
  exists r : Response,
    decodeFrame Sample.lib "XBTUSD" "ETHUSD" (Sample.text Sample.liquidationFrame) = Some r
    /\ r_Types r = Undefined
    /\ r_Results r = Some (Sample.text Sample.liquidationFrame)
    /\ readLoop Sample.lib "XBTUSD" "ETHUSD"
         (ReadFrame (Sample.text Sample.liquidationFrame) Active :: []) []
       = readLoop Sample.lib "XBTUSD" "ETHUSD" [] ([] ++ [r])
    /\ (forall (ctx : CtxState) (cerr : error),
          ctx_Err ctx = Some cerr ->
          readLoop Sample.lib "XBTUSD" "ETHUSD"
            (ReadFrame (Sample.text Sample.liquidationFrame) ctx :: []) []
          = ([], cerr)).
Proof.
  apply (undefined_topic_event Sample.lib "XBTUSD" "ETHUSD"
           (Sample.text Sample.liquidationFrame) "liquidation:XBTUSD" "[{}]" [] []).
  - vm_compute. reflexivity.
  - vm_compute. reflexivity.
  - unfold tableCases. repeat (constructor; [reflexivity|]). constructor.
Defined.

(** C8 as stated fails: the frame has a table and data, its topic is
    none of the known ones, and with the context cancelled at the
    checkpoint nothing reaches the channel. *)
Lemma undefined_topic_event_not_sent :
  jsonparser_GetString Sample.lib (Sample.text Sample.liquidationFrame) "table"
  = Some "liquidation:XBTUSD"
  /\ jsonparser_Get Sample.lib (Sample.text Sample.liquidationFrame) "data" = Some "[{}]"
  /\ switchTable tableCases "liquidation:XBTUSD" = None
  /\ readLoop Sample.lib "XBTUSD" "ETHUSD"
       [ReadFrame (Sample.text Sample.liquidationFrame) Canceled] []
     = ([], "context canceled").
Proof. repeat split; vm_compute; reflexivity. Qed.

Lemma unsubscribe_once_witness :
  exists (p : Client) (requests : list Request),
    streaming Sample.cancelledEnv ["trade"] (Some ["XBTUSD"]) = Some (p, requests)
    /\ let e := snd (readLoop Sample.lib "XBTUSD" "ETHUSD" (steps Sample.cancelledEnv) []) in
       let args := subscribeArgs ["trade"] (Some ["XBTUSD"]) in
       (e = "context canceled" \/ e = "context deadline exceeded"
        \/ exists err, e = "can't receive error: " +:+ err)
       /\ requests = [mkRequest "subscribe" args 0]
       /\ (exists pre,
             map fst (written (conn p))
             = pre ++ [JSONFrame (mkRequest "subscribe" args 0)])
       /\ exists p' : Client,
            client (Sample.connect Sample.cancelledEnv) = Some p'
            /\ map fst (written (conn p'))
               = map fst (written (conn p))
                 ++ map (fun q => JSONFrame (mkRequest "unsubscribe" (Args q) (ID q)))
                        requests
            /\ map fst (written (conn p'))
               = map fst (written (conn p))
                 ++ [JSONFrame (mkRequest "unsubscribe" args 0)]
            /\ length (List.filter isKilledSubscribe (log p')) = 1%nat
            /\ closes (conn p') = S (closes (conn p)).
Proof.
  eexists. eexists. split.
  - vm_compute. reflexivity.
  - apply (unsubscribe_once Sample.lib "XBTUSD" "ETHUSD" Sample.cancelledEnv []
             ["trade"] (Some ["XBTUSD"])).
    vm_compute. reflexivity.
Defined.

(** The two teardowns on the sample world: a dropped connection, and a
    cancelled context. *)
Example teardown_after_read_error :
  map fst (written (conn (default (mkClient Sample.freshConn None [])
                                  (client (Sample.connect Sample.droppedEnv)))))
  = [ JSONFrame (mkRequest "subscribe" [ArgString "trade:XBTUSD"] 0);
      JSONFrame (mkRequest "unsubscribe" [ArgString "trade:XBTUSD"] 0) ].
Proof. vm_compute. reflexivity. Qed.

Example teardown_after_cancel :
  outcome (Sample.connect Sample.cancelledEnv)
  = Returns (Some "context stop outside context canceled")
  /\ map (fun r => r_Types r) (channel (Sample.connect Sample.cancelledEnv)) = [Trade].
Proof. split; vm_compute; reflexivity. Qed.

(** The longer prefix is tested first. *)
Example switchTable_orderBookL2 :
  switchTable tableCases "orderBookL2:XBTUSD" = Some OrderbookL
  /\ switchTable tableCases "orderBook10:XBTUSD" = Some Orderbook
  /\ switchTable tableCases "tradeBin1m:XBTUSD" = Some TradeBin.
Proof. repeat split; reflexivity. Qed.

(** [TestProduct] of the test file. *)
Example TestProduct :
  GoStrings.sliceFrom (Z.to_nat (GoStrings.Index "test:btcusd" ":" + 1)) "test:btcusd"
  = "btcusd".
Proof. reflexivity. Qed.

(** * Part III: further properties of the code *)

(** ** The read loop and the channel *)

Section LoopProperties.

Variable lib : JSONLib.
Variables XBTUSD ETHUSD : string.

(** What the loop does is independent of what the channel holds: it
    appends what it sends and leaves with the same error. *)
Lemma readLoop_frame (todo : list Step) :
  forall ch : list Response,
    readLoop lib XBTUSD ETHUSD todo ch
    = (ch ++ delivered lib XBTUSD ETHUSD todo,
       snd (readLoop lib XBTUSD ETHUSD todo [])).
Proof.
  unfold delivered.
  induction todo as [|[msg ctx|err] todo IH]; intros ch; cbn [readLoop].
  - rewrite app_nil_r. reflexivity.
  - destruct (decodeFrame lib XBTUSD ETHUSD msg) as [r|]; [|apply IH].
    destruct (ctx_Err ctx) as [cerr|].
    + cbn. rewrite app_nil_r. reflexivity.
    + rewrite (IH (ch ++ [r])), (IH ([] ++ [r])). cbn [fst snd].
      rewrite <- !app_assoc. reflexivity.
  - cbn. rewrite app_nil_r. reflexivity.
Qed.

Lemma delivered_sent (msg : string) (r : Response) (todo : list Step) :
  decodeFrame lib XBTUSD ETHUSD msg = Some r ->
  delivered lib XBTUSD ETHUSD (ReadFrame msg Active :: todo)
  = r :: delivered lib XBTUSD ETHUSD todo.
Proof.
  intros Hr. unfold delivered at 1. cbn [readLoop]. rewrite Hr. cbn [ctx_Err].
  rewrite readLoop_frame. reflexivity.
Qed.

Lemma delivered_dropped (msg : string) (ctx : CtxState) (todo : list Step) :
  decodeFrame lib XBTUSD ETHUSD msg = None ->
  delivered lib XBTUSD ETHUSD (ReadFrame msg ctx :: todo)
  = delivered lib XBTUSD ETHUSD todo.
Proof.
  intros Hr. unfold delivered. cbn [readLoop]. rewrite Hr. reflexivity.
Qed.

(** Steps that pass leave the loop where it was, with their responses on
    the channel. *)
Lemma readLoop_passes (pre rest : list Step) :
  passes lib XBTUSD ETHUSD pre = true ->
  forall ch : list Response,
    readLoop lib XBTUSD ETHUSD (pre ++ rest) ch
    = readLoop lib XBTUSD ETHUSD rest (ch ++ delivered lib XBTUSD ETHUSD pre).
Proof.
  induction pre as [|[msg ctx|err] pre IH]; cbn [passes]; intros Hp ch.
  - cbn. rewrite app_nil_r. reflexivity.
  - cbn [app readLoop].
    destruct (decodeFrame lib XBTUSD ETHUSD msg) as [r|] eqn:Hr.
    + destruct ctx; try discriminate. cbn [ctx_Err].
      rewrite (IH Hp), (delivered_sent msg r pre Hr), <- app_assoc. reflexivity.
    + rewrite (IH Hp), (delivered_dropped msg ctx pre Hr). reflexivity.
  - discriminate.
Qed.

(** The channel after [Connect] is the channel before it, or the channel
    the read loop leaves. *)
Lemma Connect_channel_cases (env : Env) (ch : list Response) (channels : list string)
    (symbols : option (list string)) :
  channel (Connect lib XBTUSD ETHUSD env ch channels symbols) = ch
  \/ channel (Connect lib XBTUSD ETHUSD env ch channels symbols)
     = fst (readLoop lib XBTUSD ETHUSD (steps env) ch).
Proof.
  unfold Connect.
  destruct (New env) as [p0|]; [|left; reflexivity].
  destruct (match ClientAuth p0 with
            | Some auth => signture (clock env) auth p0
            | None => (p0, None)
            end) as [p1 [e|]]; [left; reflexivity|].
  destruct (subscribe p1 channels symbols) as [[p2 reqs] [e|]]; [left; reflexivity|].
  right. destruct (readLoop lib XBTUSD ETHUSD (steps env) ch) as [ch' e].
  reflexivity.
Qed.

Lemma readLoop_Forall (P : Response -> Prop) :
  (forall msg r, decodeFrame lib XBTUSD ETHUSD msg = Some r -> P r) ->
  forall (todo : list Step) (ch : list Response),
    Forall P ch -> Forall P (fst (readLoop lib XBTUSD ETHUSD todo ch)).
Proof.
  intros HP. induction todo as [|[msg ctx|err] todo IH]; intros ch Hch;
    cbn [readLoop]; try exact Hch.
  destruct (decodeFrame lib XBTUSD ETHUSD msg) as [r|] eqn:Hr; [|apply IH, Hch].
  destruct (ctx_Err ctx) as [cerr|]; [exact Hch|].
  apply IH. apply Forall_app. split; [exact Hch|].
  constructor; [exact (HP msg r Hr)|constructor].
Qed.

Lemma Connect_Forall (P : Response -> Prop) :
  (forall msg r, decodeFrame lib XBTUSD ETHUSD msg = Some r -> P r) ->
  forall (env : Env) (channels : list string) (symbols : option (list string)),
    Forall P (channel (Connect lib XBTUSD ETHUSD env [] channels symbols)).
Proof.
  intros HP env channels symbols.
  destruct (Connect_channel_cases env [] channels symbols) as [-> | ->].
  - constructor.
  - apply readLoop_Forall; [exact HP|constructor].
Qed.


End LoopProperties.

(** ** What a frame is decoded to *)


Lemma decodeSides_keeps_Asks (in_ : gmap string JValue) (p : OrderBook) :
  Asks (fst (decodeSides in_ bookname p)) = Asks p.
Proof.
  unfold bookname. cbn [decodeSides].
  destruct (in_ !! "asks") as [[| | | |asks|]|]; try reflexivity.
  destruct (in_ !! "bids") as [[| | | |bids|]|]; reflexivity.
Qed.

Lemma unmarshalOrderBooks_Asks (lib : JSONLib) (elems : list string) :
  forall books : list OrderBook,
    unmarshalOrderBooks lib elems = Some books ->
    Forall (fun book => Asks book = []) books.
Proof.
  induction elems as [|e elems IH]; intros books; cbn [unmarshalOrderBooks].
  - intros H. injection H as <-. constructor.
  - destruct (UnmarshalJSON lib zeroOrderBook e) as [p [err|]] eqn:Hp; [discriminate|].
    destruct (unmarshalOrderBooks lib elems) as [ps|]; [|discriminate].
    intros H. injection H as <-. constructor; [|apply IH; reflexivity].
    unfold UnmarshalJSON in Hp.
    destruct (json_Unmarshal_map lib e) as [jerr|in_]; [discriminate|].
    change p with (fst (p, @None error)). rewrite <- Hp.
    apply decodeSides_keeps_Asks.
Qed.

Section FrameProperties.

Variable lib : JSONLib.
Variables XBTUSD ETHUSD : string.


Lemma decodeFrame_noAsks (msg : string) (r : Response) :
  decodeFrame lib XBTUSD ETHUSD msg = Some r -> noAsks r.
Proof.
  unfold decodeFrame, noAsks.
  destruct (jsonparser_GetString lib msg "table") as [name|]; [|discriminate].
  destruct (jsonparser_Get lib msg "data") as [data|]; [|discriminate].
  destruct (switchTable tableCases name) as [t|].
  - destruct (unmarshalData lib t data _) as [r'|] eqn:Hr'; [|discriminate].
    intros H. injection H as <-. cbn [r_Orderbook].
    unfold unmarshalData in Hr'.
    destruct t;
      try (destruct (json_Unmarshal_rows lib _ data); [|discriminate];
           injection Hr' as <-; constructor).
    destruct (json_Unmarshal_elements lib data) as [elems|]; [|discriminate].
    destruct (unmarshalOrderBooks lib elems) as [books|] eqn:Hb; [|discriminate].
    injection Hr' as <-. cbn. exact (unmarshalOrderBooks_Asks lib elems books Hb).
  - intros H. injection H as <-. constructor.
Qed.


(** No order book a session sends has a row in [Asks]: the rows under
    [asks] never reach a consumer of the channel. *)
Theorem Connect_sends_no_asks (env : Env) (channels : list string)
    (symbols : option (list string)) :
  Forall noAsks (channel (Connect lib XBTUSD ETHUSD env [] channels symbols)).
Proof. apply Connect_Forall. exact decodeFrame_noAsks. Qed.

(** [Connect] returns nil only from a session that streamed: a failure
    of the authentication or of the subscription is always returned as
    an error. *)
Theorem Connect_nil_after_streaming (env : Env) (ch : list Response)
    (channels : list string) (symbols : option (list string)) :
  outcome (Connect lib XBTUSD ETHUSD env ch channels symbols) = Returns None ->
  exists (p : Client) (requests : list Request),
    streaming env channels symbols = Some (p, requests)
    /\ GoStrings.Contains (snd (readLoop lib XBTUSD ETHUSD (steps env) ch))
         "context canceled" = false.
Proof.
  unfold Connect, streaming.
  destruct (New env) as [p0|]; [|discriminate].
  destruct (match ClientAuth p0 with
            | Some auth => signture (clock env) auth p0
            | None => (p0, None)
            end) as [p1 [e|]]; [discriminate|].
  destruct (subscribe p1 channels symbols) as [[p2 reqs] [e|]]; [discriminate|].
  destruct (readLoop lib XBTUSD ETHUSD (steps env) ch) as [ch' e]. cbn.
  destruct (GoStrings.Contains e "context canceled"); [discriminate|].
  intros _. exists p2, reqs. split; reflexivity.
Qed.

(** A context that is done is seen only at the checkpoint after a frame
    that was decoded. When it is seen there the frame is not sent and
    the rest is not read; [Connect] returns the error [context stop
    outside context canceled] for a cancelled context, and nil for a
    context whose deadline has passed. *)
Theorem Connect_context_done (env : Env) (ch : list Response) (channels : list string)
    (symbols : option (list string)) (p : Client) (requests : list Request)
    (pre rest : list Step) (msg : string) (ctx : CtxState) (r : Response) :
  streaming env channels symbols = Some (p, requests) ->
  steps env = pre ++ ReadFrame msg ctx :: rest ->
  passes lib XBTUSD ETHUSD pre = true ->
  decodeFrame lib XBTUSD ETHUSD msg = Some r ->
  ctx <> Active ->
  outcome (Connect lib XBTUSD ETHUSD env ch channels symbols)
  = Returns (match ctx with
             | Canceled => Some "context stop outside context canceled"
             | _ => None
             end)
  /\ channel (Connect lib XBTUSD ETHUSD env ch channels symbols)
     = ch ++ delivered lib XBTUSD ETHUSD pre.
Proof.
  intros Hs Hsteps Hpre Hr Hctx.
  rewrite (Connect_streaming lib XBTUSD ETHUSD env ch channels symbols p requests Hs).
  cbv zeta. rewrite Hsteps, (readLoop_passes lib XBTUSD ETHUSD pre _ Hpre).
  cbn [readLoop]. rewrite Hr.
  destruct ctx; [contradiction| |]; cbn; split; reflexivity.
Qed.

(** The loop leaves with the error of a cancelled context exactly when
    the checkpoint after some decoded frame sees the context cancelled,
    every step before it having passed. Frames that are dropped (no
    table, no data, or data that does not decode) never show the loop
    that the context is done. *)
Theorem readLoop_cancel_iff (todo : list Step) (ch : list Response) :
  snd (readLoop lib XBTUSD ETHUSD todo ch) = "context canceled"
  <-> exists pre msg r rest,
        todo = pre ++ ReadFrame msg Canceled :: rest
        /\ passes lib XBTUSD ETHUSD pre = true
        /\ decodeFrame lib XBTUSD ETHUSD msg = Some r.
Proof.
  split.
  - revert ch. induction todo as [|[msg ctx|err] todo IH]; intros ch; cbn [readLoop].
    + intros H. vm_compute in H. discriminate H.
    + destruct (decodeFrame lib XBTUSD ETHUSD msg) as [r|] eqn:Hr.
      * destruct ctx; cbn [ctx_Err snd].
        -- intros H. destruct (IH _ H) as (pre & m & r' & rest & -> & Hp & Hd).
           exists (ReadFrame msg Active :: pre), m, r', rest.
           split; [reflexivity|]. split; [|exact Hd].
           cbn [passes]. rewrite Hr. exact Hp.
        -- intros _. exists [], msg, r, todo. repeat split. exact Hr.
        -- intros H. discriminate H.
      * intros H. destruct (IH _ H) as (pre & m & r' & rest & -> & Hp & Hd).
        exists (ReadFrame msg ctx :: pre), m, r', rest.
        split; [reflexivity|]. split; [|exact Hd].
        cbn [passes]. rewrite Hr. exact Hp.
    + cbn [snd]. intros H.
      change ("can't receive error: " +:+ err)
        with (String "c" (String "a" ("n't receive error: " +:+ err))) in H.
      discriminate H.
  - intros (pre & msg & r & rest & -> & Hp & Hd).
    rewrite (readLoop_passes lib XBTUSD ETHUSD pre _ Hp).
    cbn [readLoop]. rewrite Hd. reflexivity.
Qed.

End FrameProperties.

(** ** Writes, logs and the connection *)

Lemma unsubscribeEach_spec (requests : list Request) :
  forall p : Client,
    log (unsubscribeEach p requests)
    = log p
      ++ map LogUnsubscribe
           (failures (take (length requests) (writeOutcomes (conn p))))
    /\ writeOutcomes (conn (unsubscribeEach p requests))
       = drop (length requests) (writeOutcomes (conn p))
    /\ closeOutcome (conn (unsubscribeEach p requests)) = closeOutcome (conn p)
    /\ ClientAuth (unsubscribeEach p requests) = ClientAuth p.
Proof.
  induction requests as [|q requests IH]; intros p.
  - cbn. rewrite app_nil_r. repeat split.
  - cbn [unsubscribeEach length].
    case_write p; cbn [fst snd];
      match goal with
      | |- context [unsubscribeEach ?p0 requests] =>
          destruct (IH p0) as (Hl & Ho & Hco & Ha)
      end;
      rewrite Hl, Ho, Hco, Ha; unfold setConn, logf, failures; cbn;
      rewrite ?take_nil, ?drop_nil, <- ?app_assoc; repeat split.
Qed.

(** [unsubscribe] is best effort. It attempts every request once, in
    order, with the operation [unsubscribe] and the arguments and id of
    the request, whatever the writes answer; it prints one line for each
    write that failed and then [killed subscribe], uses up one write
    outcome for each request, and does not close the connection. *)
Theorem unsubscribe_best_effort (requests : list Request) (p : Client) :
  map fst (written (conn (unsubscribe p requests)))
  = map fst (written (conn p))
    ++ map (fun q => JSONFrame (mkRequest "unsubscribe" (Args q) (ID q))) requests
  /\ log (unsubscribe p requests)
     = log p
       ++ map LogUnsubscribe
            (failures (take (length requests) (writeOutcomes (conn p))))
       ++ [LogKilledSubscribe]
  /\ writeOutcomes (conn (unsubscribe p requests))
     = drop (length requests) (writeOutcomes (conn p))
  /\ closes (conn (unsubscribe p requests)) = closes (conn p)
  /\ closeOutcome (conn (unsubscribe p requests)) = closeOutcome (conn p)
  /\ ClientAuth (unsubscribe p requests) = ClientAuth p.
Proof.
  destruct (unsubscribeEach_spec requests p) as (Hl & Ho & Hco & Ha).
  unfold unsubscribe, logf. cbn [conn log ClientAuth].
  rewrite written_unsubscribeEach, closes_unsubscribeEach, Hl, Ho, Hco, Ha.
  rewrite <- app_assoc. repeat split.
Qed.

(** The keep-alive writes the text frame [ping] once for every firing
    of the ticker, whether or not earlier pings failed, and prints
    nothing. *)
Theorem ping_every_tick (ticks : nat) :
  forall p : Client,
    map fst (written (conn (ping p ticks)))
    = map fst (written (conn p)) ++ replicate ticks (TextFrame "ping")
    /\ log (ping p ticks) = log p
    /\ writeOutcomes (conn (ping p ticks)) = drop ticks (writeOutcomes (conn p))
    /\ closes (conn (ping p ticks)) = closes (conn p).
Proof.
  induction ticks as [|ticks IH]; intros p.
  - cbn. rewrite app_nil_r. repeat split.
  - cbn [ping replicate].
    destruct (IH (setConn p (fst (WriteMessage (conn p) "ping"))))
      as (Hw & Hl & Ho & Hc).
    rewrite Hw, Hl, Ho, Hc. unfold WriteMessage, setConn. cbn.
    rewrite map_app, <- app_assoc. cbn.
    destruct (writeOutcomes (conn p)); cbn; rewrite ?drop_nil; repeat split.
Qed.

Section TraceProperties.

Variable lib : JSONLib.
Variables XBTUSD ETHUSD : string.

(** The state in which a session starts to stream, from the connection
    the dial gave. *)
Lemma streaming_trace (env : Env) (channels : list string)
    (symbols : option (list string)) (c : Conn) (p : Client)
    (requests : list Request) :
  dial env = inr c ->
  streaming env channels symbols = Some (p, requests) ->
  map fst (written (conn p))
  = map fst (written c)
    ++ match ctxAuth env with
       | Some auth => [JSONFrame (authRequest (clock env) auth)]
       | None => []
       end
    ++ [JSONFrame (mkRequest "subscribe" (subscribeArgs channels symbols) 0)]
  /\ writeOutcomes (conn p) = drop (startupWrites (ctxAuth env)) (writeOutcomes c)
  /\ closes (conn p) = closes c
  /\ closeOutcome (conn p) = closeOutcome c
  /\ ClientAuth p = ctxAuth env.
Proof.
  intros Hd. unfold streaming, New. rewrite Hd. cbn [ClientAuth].
  destruct (ctxAuth env) as [auth|].
  - rewrite signture_writes. unfold subscribe, WriteJSON. cbn.
    destruct (writeOutcomes c) as [|[e|] [|[e'|] outs]]; cbn; try discriminate;
      intros H; injection H as <- <-; cbn;
      rewrite !map_app, <- ?app_assoc; repeat split.
  - unfold subscribe, WriteJSON. cbn.
    destruct (writeOutcomes c) as [|[e|] outs]; cbn; try discriminate;
      intros H; injection H as <- <-; cbn;
      rewrite !map_app, <- ?app_assoc; repeat split.
Qed.

(** The frames of a whole session, the pings of the goroutine [ping]
    apart. A session that streams writes, from the dial to the return of
    [Connect], the authentication request if and only if the context
    carries a credential, then the subscribe request, then the
    unsubscribe request with the same arguments, and nothing else of its
    own; it uses up one write outcome for each. *)
Theorem Connect_session_writes (env : Env) (ch : list Response)
    (channels : list string) (symbols : option (list string)) (c : Conn)
    (p : Client) (requests : list Request) :
  dial env = inr c ->
  streaming env channels symbols = Some (p, requests) ->
  exists p' : Client,
    client (Connect lib XBTUSD ETHUSD env ch channels symbols) = Some p'
    /\ map fst (written (conn p'))
       = map fst (written c)
         ++ match ctxAuth env with
            | Some auth => [JSONFrame (authRequest (clock env) auth)]
            | None => []
            end
         ++ [ JSONFrame (mkRequest "subscribe" (subscribeArgs channels symbols) 0);
              JSONFrame (mkRequest "unsubscribe" (subscribeArgs channels symbols) 0) ]
    /\ writeOutcomes (conn p')
       = drop (S (startupWrites (ctxAuth env))) (writeOutcomes c).
Proof.
  intros Hd Hs.
  destruct (streaming_trace env channels symbols c p requests Hd Hs)
    as (Hw & Ho & _).
  destruct (streaming_state env channels symbols p requests Hs) as (Hreq & _).
  rewrite (Connect_streaming lib XBTUSD ETHUSD env ch channels symbols p requests Hs).
  cbv zeta. cbn [client]. eexists. split; [reflexivity|].
  set (p0 := logf p _).
  destruct (unsubscribeEach_spec requests p0) as (_ & Hou & _).
  split.
  - rewrite Close_written, unsubscribe_conn, written_unsubscribeEach.
    subst p0. cbn [logf conn]. rewrite Hw, Hreq. cbn [map Args ID].
    rewrite <- !app_assoc. reflexivity.
  - replace (writeOutcomes (conn (fst (Close (unsubscribe p0 requests)))))
      with (writeOutcomes (conn (unsubscribeEach p0 requests)))
      by (unfold Close; destruct (closeOutcome (conn (unsubscribe p0 requests)));
          reflexivity).
    rewrite Hou. subst p0. cbn [logf conn]. rewrite Ho, Hreq, drop_drop.
    f_equal. cbn [length]. lia.
Qed.

(** When the write of the authentication request fails, [Connect]
    returns that error as it is: it has written nothing else, it does
    not subscribe, sends nothing on the channel, prints nothing but a
    failure of [Close], and closes the connection once. *)
Theorem Connect_auth_write_failure (env : Env) (ch : list Response)
    (channels : list string) (symbols : option (list string)) (c : Conn)
    (auth : Auth) (e : error) (outs : list (option error)) :
  dial env = inr c ->
  ctxAuth env = Some auth ->
  writeOutcomes c = Some e :: outs ->
  Connect lib XBTUSD ETHUSD env ch channels symbols
  = mkResult (Returns (Some e))
      (Some (mkClient
               (mkConn outs (closeOutcome c)
                  (written c ++ [(JSONFrame (authRequest (clock env) auth), Some e)])
                  (S (closes c)))
               (Some auth)
               (match closeOutcome c with
                | Some cerr => [LogClose cerr]
                | None => []
                end)))
      ch.
Proof.
  intros Hd Ha Hw. unfold Connect, New. rewrite Hd. cbn [ClientAuth]. rewrite Ha.
  rewrite signture_writes. unfold WriteJSON. cbn. rewrite Hw. cbn.
  unfold Close. cbn. destruct (closeOutcome c); reflexivity.
Qed.

(** When the write of the subscribe request fails, [Connect] returns
    [disconnect] followed by the error and prints the same: the
    subscribe request is the last frame written, no unsubscribe request
    follows, nothing is sent on the channel, and the connection is
    closed once. *)
Theorem Connect_subscribe_write_failure (env : Env) (ch : list Response)
    (channels : list string) (symbols : option (list string)) (c : Conn)
    (e : error) (outs : list (option error)) :
  dial env = inr c ->
  writeOutcomes c
  = match ctxAuth env with
    | Some _ => None :: Some e :: outs
    | None => Some e :: outs
    end ->
  Connect lib XBTUSD ETHUSD env ch channels symbols
  = mkResult (Returns (Some ("disconnect " +:+ e)))
      (Some (mkClient
               (mkConn outs (closeOutcome c)
                  (written c
                   ++ match ctxAuth env with
                      | Some auth => [(JSONFrame (authRequest (clock env) auth), None)]
                      | None => []
                      end
                   ++ [(JSONFrame
                          (mkRequest "subscribe" (subscribeArgs channels symbols) 0),
                        Some e)])
                  (S (closes c)))
               (ctxAuth env)
               (LogDisconnect e
                :: match closeOutcome c with
                   | Some cerr => [LogClose cerr]
                   | None => []
                   end)))
      ch.
Proof.
  intros Hd Hw. unfold Connect, New. rewrite Hd. cbn [ClientAuth].
  destruct (ctxAuth env) as [auth|].
  - rewrite signture_writes. unfold subscribe, WriteJSON. cbn. rewrite Hw. cbn.
    unfold Close. cbn. destruct (closeOutcome c); cbn;
      rewrite <- ?app_assoc; reflexivity.
  - unfold subscribe, WriteJSON. cbn. rewrite Hw. cbn.
    unfold Close. cbn. destruct (closeOutcome c); reflexivity.
Qed.

(** Whenever the dial succeeds [Connect] returns, without a panic, and
    has closed the connection exactly once, on every path: a failed
    authentication, a failed subscription, or the end of the read loop.
    It never changes the credential of its client. *)
Theorem Connect_closes_once (env : Env) (ch : list Response) (channels : list string)
    (symbols : option (list string)) (c : Conn) :
  dial env = inr c ->
  exists (err : option error) (p' : Client),
    outcome (Connect lib XBTUSD ETHUSD env ch channels symbols) = Returns err
    /\ client (Connect lib XBTUSD ETHUSD env ch channels symbols) = Some p'
    /\ closes (conn p') = S (closes c)
    /\ ClientAuth p' = ctxAuth env.
Proof.
  intros Hd.
  destruct (streaming env channels symbols) as [[p requests]|] eqn:Hs.
  - destruct (streaming_trace env channels symbols c p requests Hd Hs)
      as (_ & _ & Hc & _ & Ha).
    rewrite (Connect_streaming lib XBTUSD ETHUSD env ch channels symbols p requests Hs).
    cbv zeta. cbn [outcome client]. eexists. eexists.
    split; [reflexivity|]. split; [reflexivity|].
    split.
    + autorewrite with teardown. cbn [logf conn]. rewrite Hc. reflexivity.
    + destruct (unsubscribeEach_spec requests
                  (logf p (LogError (snd (readLoop lib XBTUSD ETHUSD (steps env) ch)))))
        as (_ & _ & _ & Hau).
      unfold Close, unsubscribe.
      destruct (closeOutcome _); cbn [fst ClientAuth logf setConn];
        rewrite Hau; exact Ha.
  - revert Hs. unfold streaming, Connect, New. rewrite Hd. cbn [ClientAuth].
    destruct (ctxAuth env) as [auth|].
    + rewrite signture_writes. unfold subscribe, WriteJSON. cbn.
      destruct (writeOutcomes c) as [|[e|] [|[e'|] outs]]; cbn; try discriminate;
        intros _; unfold Close; cbn; destruct (closeOutcome c); cbn;
        eexists; eexists; repeat split.
    + unfold subscribe, WriteJSON. cbn.
      destruct (writeOutcomes c) as [|[e|] outs]; cbn; try discriminate;
        intros _; unfold Close; cbn; destruct (closeOutcome c); cbn;
        eexists; eexists; repeat split.
Qed.

End TraceProperties.

(** ** Topics *)

Lemma HasPrefix_append (p s q : string) :
  GoStrings.HasPrefix (p +:+ s) (p +:+ q) = GoStrings.HasPrefix s q.
Proof.
  induction p as [|a p IH].
  - reflexivity.
  - rewrite !append_cons. cbn [GoStrings.HasPrefix]. rewrite Ascii.eqb_refl. exact IH.
Qed.

(** The switch on the topic tests the longer of two overlapping
    prefixes first. Whatever follows, a topic that starts with
    [orderBookL] is of the table [OrderbookL] and one that starts with
    [tradeBin] of the table [TradeBin]; a topic that starts with
    [orderBook], [trade] or [order] goes to [Orderbook], [Trade] or
    [Order] exactly when the longer prefix does not apply. *)
Theorem switchTable_overlapping_prefixes (rest : string) :
  switchTable tableCases ("orderBookL" +:+ rest) = Some OrderbookL
  /\ switchTable tableCases ("tradeBin" +:+ rest) = Some TradeBin
  /\ switchTable tableCases ("orderBook" +:+ rest)
     = Some (if GoStrings.HasPrefix rest "L" then OrderbookL else Orderbook)
  /\ switchTable tableCases ("trade" +:+ rest)
     = Some (if GoStrings.HasPrefix rest "Bin" then TradeBin else Trade)
  /\ switchTable tableCases ("order" +:+ rest)
     = Some (if GoStrings.HasPrefix rest "BookL" then OrderbookL
             else if GoStrings.HasPrefix rest "Book" then Orderbook
             else Order).
Proof.
  split; [reflexivity|]. split; [reflexivity|].
  unfold tableCases. cbn [switchTable].
  split; [|split].
  - change (GoStrings.HasPrefix ("orderBook" +:+ rest) "quote") with false.
    change "orderBookL" with ("orderBook" +:+ "L").
    rewrite HasPrefix_append.
    change ("orderBook" +:+ "L") with "orderBookL".
    destruct (GoStrings.HasPrefix rest "L"); reflexivity.
  - change (GoStrings.HasPrefix ("trade" +:+ rest) "quote") with false.
    change (GoStrings.HasPrefix ("trade" +:+ rest) "orderBookL") with false.
    change (GoStrings.HasPrefix ("trade" +:+ rest) "orderBook") with false.
    change "tradeBin" with ("trade" +:+ "Bin").
    rewrite HasPrefix_append.
    destruct (GoStrings.HasPrefix rest "Bin"); reflexivity.
  - change (GoStrings.HasPrefix ("order" +:+ rest) "quote") with false.
    change "orderBookL" with ("order" +:+ "BookL").
    change "orderBook" with ("order" +:+ "Book").
    rewrite !HasPrefix_append.
    destruct (GoStrings.HasPrefix rest "BookL"); [reflexivity|].
    destruct (GoStrings.HasPrefix rest "Book"); [reflexivity|].
    reflexivity.
Qed.

(** The name [String()] gives a table leads the switch back to that
    table, alone or followed by a colon and a symbol, for the 21 tables
    that have a case. [Liquidation] has a name but no case, and [All],
    [Undefined] and [Error] have none either: their topics fall to
    [default]. *)
Theorem switchTable_Types_String (t : Types) (symbol : string) :
  let expected :=
    match t with
    | All | Liquidation | Undefined | Error => None
    | _ => Some t
    end in
  switchTable tableCases (Types_String t) = expected
  /\ switchTable tableCases (Types_String t +:+ ":" +:+ symbol) = expected.
Proof.
  destruct t; split; reflexivity.
Qed.

Lemma Contains_cons_colon (a : ascii) (p : string) :
  GoStrings.Contains (String a p) ":" = Ascii.eqb ":" a || GoStrings.Contains p ":".
Proof.
  unfold GoStrings.Contains. rewrite Index_cons, HasPrefix_colon.
  destruct (Ascii.eqb ":" a); [reflexivity|]. cbn [orb].
  destruct (GoStrings.Index p ":" <? 0)%Z eqn:Hi.
  - apply Z.ltb_lt in Hi. symmetry. apply Z.leb_gt. exact Hi.
  - apply Z.ltb_ge in Hi. transitivity true.
    + apply Z.leb_le. lia.
    + symmetry. apply Z.leb_le. exact Hi.
Qed.

(** A topic with a colon splits at its first colon. *)
Lemma Contains_colon_split (name : string) :
  GoStrings.Contains name ":" = true ->
  exists p s, name = p +:+ ":" +:+ s /\ GoStrings.Contains p ":" = false.
Proof.
  induction name as [|a name IH].
  - discriminate.
  - rewrite Contains_cons_colon.
    destruct (Ascii.eqb ":" a) eqn:Ha.
    + intros _. apply Ascii.eqb_eq in Ha. subst a.
      exists EmptyString, name. split; reflexivity.
    + cbn [orb]. intros H. destruct (IH H) as (p & s & -> & Hp).
      exists (String a p), s. split; [reflexivity|].
      rewrite Contains_cons_colon, Ha, Hp. reflexivity.
Qed.

Lemma length_append (s t : string) :
  String.length (s +:+ t) = (String.length s + String.length t)%nat.
Proof.
  induction s as [|a s IH]; [reflexivity|].
  rewrite append_cons. cbn [String.length]. rewrite IH. reflexivity.
Qed.

(** The product code of a topic that ends with none of the known
    symbols. Without a colon it is [undefined]. With one, the slice
    [name[Index+1:]] is within the bounds of the topic, and the topic is
    a prefix without a colon, the colon, and the product code: nothing
    of the text after the first colon is lost. *)
Theorem productCode_unknown_symbol (XBTUSD ETHUSD name : string) :
  GoStrings.HasSuffix name XBTUSD = false ->
  GoStrings.HasSuffix name ETHUSD = false ->
  GoStrings.HasSuffix name "XRPUSD" = false ->
  (GoStrings.Contains name ":" = false
   /\ productCode XBTUSD ETHUSD name = "undefined")
  \/ (GoStrings.Contains name ":" = true
      /\ (Z.to_nat (GoStrings.Index name ":" + 1) <= String.length name)%nat
      /\ exists prefix,
           GoStrings.Contains prefix ":" = false
           /\ name = prefix +:+ ":" +:+ productCode XBTUSD ETHUSD name).
Proof.
  intros HX HE HR. unfold productCode. rewrite HX, HE, HR.
  destruct (GoStrings.Contains name ":") eqn:Hc.
  - right. split; [reflexivity|].
    destruct (Contains_colon_split name Hc) as (p & s & -> & Hp).
    rewrite (Index_first_colon p s Hp).
    replace (Z.to_nat (Z.of_nat (String.length p) + 1))
      with (String.length p + 1)%nat by lia.
    rewrite sliceFrom_append. cbn [GoStrings.sliceFrom].
    split.
    + rewrite length_append. change (":" +:+ s) with (String ":" s).
      cbn [String.length]. lia.
    + exists p. split; [exact Hp|reflexivity].
  - left. split; reflexivity.
Qed.

Lemma productCode_unknown_symbol_witness :
  (GoStrings.Contains "chat:1" ":" = false
   /\ productCode "XBTUSD" "ETHUSD" "chat:1" = "undefined")
  \/ (GoStrings.Contains "chat:1" ":" = true
      /\ (Z.to_nat (GoStrings.Index "chat:1" ":" + 1) <= String.length "chat:1")%nat
      /\ exists prefix,
           GoStrings.Contains prefix ":" = false
           /\ "chat:1" = prefix +:+ ":" +:+ productCode "XBTUSD" "ETHUSD" "chat:1").
Proof.
  apply (productCode_unknown_symbol "XBTUSD" "ETHUSD" "chat:1"); reflexivity.
Defined.

(** ** The arguments of a subscription *)

Lemma length_crossProduct (channels symbols : list string) :
  length (crossProduct channels symbols) = (length channels * length symbols)%nat.
Proof.
  unfold crossProduct. induction channels as [|c channels IH]; [reflexivity|].
  cbn [flat_map length]. rewrite length_app, length_map, IH. reflexivity.
Qed.

(** With symbols, the arguments of the subscribe request are exactly the
    pairs [channel:symbol] of a channel and a symbol of the two lists,
    one for each pair; without symbols (a nil list), exactly the
    channels. *)
Theorem subscribeArgs_pairs (channels symbols : list string) (a : Arg) :
  (In a (subscribeArgs channels (Some symbols))
   <-> exists c s, In c channels /\ In s symbols /\ a = ArgString (c +:+ ":" +:+ s))
  /\ length (subscribeArgs channels (Some symbols))
     = (length channels * length symbols)%nat
  /\ (In a (subscribeArgs channels None)
      <-> exists c, In c channels /\ a = ArgString c)
  /\ length (subscribeArgs channels None) = length channels.
Proof.
  rewrite !subscribeArgs_spec. split; [|split; [|split]].
  - unfold crossProduct. rewrite in_flat_map. split.
    + intros (c & Hc & Ha). apply in_map_iff in Ha. destruct Ha as (s & <- & Hs).
      exists c, s. auto.
    + intros (c & s & Hc & Hs & ->). exists c. split; [exact Hc|].
      apply in_map_iff. exists s. auto.
  - apply length_crossProduct.
  - rewrite in_map_iff. split.
    + intros (c & <- & Hc). exists c. auto.
    + intros (c & Hc & ->). exists c. auto.
  - apply length_map.
Qed.

(** ** The order book decoder, on its other paths *)

(** [UnmarshalJSON] never writes [Asks], whether it succeeds or fails;
    and when the text is not JSON it returns the error of the decoder
    and leaves the whole receiver as it was. *)
Theorem UnmarshalJSON_frame (lib : JSONLib) (p : OrderBook) (b : string) :
  Asks (fst (UnmarshalJSON lib p b)) = Asks p
  /\ (forall err, json_Unmarshal_map lib b = inl err ->
        UnmarshalJSON lib p b = (p, Some err)).
Proof.
  unfold UnmarshalJSON. destruct (json_Unmarshal_map lib b) as [err|in_].
  - split; [reflexivity|]. intros err' H. injection H as <-. reflexivity.
  - split; [|discriminate]. rewrite decodeSides_keeps_Asks. reflexivity.
Qed.

(** A failed call is not without effect. When [asks] is an array and
    [bids] is not, [UnmarshalJSON] returns [data has not type] after it
    has overwritten the receiver: [Symbol] and [Timestamp] are those of
    the text, and [Bids] holds the rows of [asks]. *)
Theorem UnmarshalJSON_failure_leaves_asks_in_Bids (lib : JSONLib) (p : OrderBook)
    (b : string) (in_ : gmap string JValue) (asks : list JValue) :
  json_Unmarshal_map lib b = inr in_ ->
  in_ !! "asks" = Some (JArray asks) ->
  isArray (in_ !! "bids") = false ->
  UnmarshalJSON lib p b
  = (mkOrderBook
       (fmt_Sprintf_v lib (in_ !! "symbol"))
       (default zeroTime
          (time_Parse_RFC3339Nano lib (fmt_Sprintf_v lib (in_ !! "timestamp"))))
       (decodeRows asks)
       (Asks p),
     Some "data has not type").
Proof.
  intros Hin Ha Hb. unfold UnmarshalJSON. rewrite Hin.
  unfold bookname. cbn [decodeSides]. rewrite Ha.
  destruct (time_Parse_RFC3339Nano lib _);
    destruct (in_ !! "bids") as [[| | | |bids|]|]; try discriminate Hb; reflexivity.
Qed.

Lemma UnmarshalJSON_failure_leaves_asks_in_Bids_witness :
  UnmarshalJSON Sample.lib zeroOrderBook Sample.asksOnlyText
  = (mkOrderBook "<nil>" zeroTime [mkBook 7025%float 10%float] [],
     Some "data has not type").
Proof.
  apply (UnmarshalJSON_failure_leaves_asks_in_Bids Sample.lib zeroOrderBook
           Sample.asksOnlyText Sample.asksOnlyMap
           [JArray [JNumber 7025%float; JNumber 10%float]]).
  - vm_compute. reflexivity.
  - vm_compute. reflexivity.
  - vm_compute. reflexivity.
Defined.


(** ** Decimal numbers: [formatInt] read back by [ParseInt] *)

Section Decimal.

Local Open Scope Z_scope.

Lemma uintVal_ge (d : Decimal.uint) : forall acc, 0 <= acc -> acc <= Strconv.uintVal d acc.
Proof.
  induction d as [|d IH|d IH|d IH|d IH|d IH|d IH|d IH|d IH|d IH|d IH];
    intros acc Hacc; cbn [Strconv.uintVal]; [lia|..];
    (etransitivity; [|apply IH; lia]); lia.
Qed.

Lemma parseDigits_string_of_uint (d : Decimal.uint) :
  forall acc,
    0 <= acc -> Strconv.uintVal d acc <= Strconv.maxUint64 ->
    Strconv.parseDigits (NilEmpty.string_of_uint d) acc = (Strconv.uintVal d acc, None).
Proof.
  induction d as [|d IH|d IH|d IH|d IH|d IH|d IH|d IH|d IH|d IH|d IH];
    intros acc Hacc Hmax; cbn [Strconv.uintVal NilEmpty.string_of_uint] in *;
    [reflexivity|..];
    cbn [Strconv.parseDigits];
    match goal with
    | |- context [Strconv.digit ?c] =>
        change (Strconv.digit c) with (Some (Z.of_N (N_of_ascii c) - 48))
    end;
    cbn [N_of_ascii N_of_digits];
    match goal with
    | |- context [Strconv.maxUint64 <? ?n] =>
        assert (Hn : n <= Strconv.maxUint64)
          by (etransitivity; [apply uintVal_ge; lia|]; exact Hmax);
        replace (Strconv.maxUint64 <? n) with false
          by (symmetry; apply Z.ltb_ge; exact Hn)
    end;
    apply IH; solve [lia | exact Hmax].
Qed.

Lemma uintVal_of_uint_acc (d : Decimal.uint) :
  forall acc : positive, Strconv.uintVal d (Z.pos acc) = Z.pos (Pos.of_uint_acc d acc).
Proof.
  induction d as [|d IH|d IH|d IH|d IH|d IH|d IH|d IH|d IH|d IH|d IH];
    intros acc; cbn [Strconv.uintVal Pos.of_uint_acc]; [reflexivity|..];
    rewrite <- IH; f_equal; lia.
Qed.

Lemma uintVal_of_uint (d : Decimal.uint) :
  Strconv.uintVal d 0 = Z.of_N (Pos.of_uint d).
Proof.
  induction d as [|d IH|d IH|d IH|d IH|d IH|d IH|d IH|d IH|d IH|d IH];
    cbn [Strconv.uintVal Pos.of_uint]; [reflexivity|exact IH|..];
    cbn [Z.mul Z.add Z.of_N]; apply uintVal_of_uint_acc.
Qed.

Lemma uintVal_to_uint (p : positive) : Strconv.uintVal (Pos.to_uint p) 0 = Z.pos p.
Proof. rewrite uintVal_of_uint, DecimalPos.Unsigned.of_to. reflexivity. Qed.

(** The digits [formatInt] prints for a positive number are read back as
    that number. *)
Lemma ParseUint_to_uint (p : positive) :
  Z.pos p <= Strconv.maxUint64 ->
  NilZero.string_of_uint (Pos.to_uint p) = NilEmpty.string_of_uint (Pos.to_uint p)
  /\ Strconv.ParseUint (NilEmpty.string_of_uint (Pos.to_uint p)) = (Z.pos p, None)
  /\ exists c s, NilEmpty.string_of_uint (Pos.to_uint p) = String c s
                 /\ Ascii.eqb c "-" = false /\ Ascii.eqb c "+" = false.
Proof.
  intros Hmax.
  pose proof (DecimalPos.Unsigned.to_uint_nonnil p) as Hnil.
  pose proof (uintVal_to_uint p) as Hval.
  pose proof (parseDigits_string_of_uint (Pos.to_uint p) 0) as Hparse.
  rewrite Hval in Hparse. specialize (Hparse ltac:(lia) Hmax).
  destruct (Pos.to_uint p) as [|d|d|d|d|d|d|d|d|d|d]; [contradiction|..];
    (split; [reflexivity|]); (split; [exact Hparse|]);
    cbn [NilEmpty.string_of_uint]; eexists; eexists;
    (split; [reflexivity|]); split; reflexivity.
Qed.

(** [ParseInt] reads back what [formatInt] prints, for every [int64]. *)
Lemma ParseInt_formatInt (n : Z) :
  - 2 ^ 63 <= n < 2 ^ 63 ->
  Strconv.ParseInt (formatInt n) = (n, None) /\ formatInt n <> EmptyString.
Proof.
  intros Hn. unfold formatInt. destruct n as [|p|p]; cbn [Z.to_int NilZero.string_of_int].
  - split; [reflexivity|discriminate].
  - destruct (ParseUint_to_uint p) as (-> & Hp & c & s & Hs & Hm & Hpl).
    { unfold Strconv.maxUint64. lia. }
    split; [|rewrite Hs; discriminate].
    rewrite Hs in *. unfold Strconv.ParseInt. rewrite Hm, Hpl. cbn [orb negb andb].
    rewrite Hp. cbn [negb andb].
    replace (2 ^ 63 <=? Z.pos p) with false by (symmetry; apply Z.leb_gt; lia).
    reflexivity.
  - destruct (ParseUint_to_uint p) as (-> & Hp & c & s & Hs & Hm & Hpl).
    { unfold Strconv.maxUint64. lia. }
    split; [|discriminate].
    unfold Strconv.ParseInt.
    change (Ascii.eqb "-" "-") with true. rewrite orb_true_r.
    rewrite Hp. cbn [negb andb].
    replace (2 ^ 63 <? Z.pos p) with false by (symmetry; apply Z.ltb_ge; lia).
    reflexivity.
Qed.

(** A syntax error of [ParseInt] comes with the value 0. *)
Lemma ParseInt_syntax (s : string) :
  snd (Strconv.ParseInt s) = Some Strconv.ErrSyntax -> fst (Strconv.ParseInt s) = 0.
Proof.
  unfold Strconv.ParseInt. destruct s as [|c s]; [reflexivity|].
  destruct (Strconv.ParseUint _) as [un [[|]|]]; [reflexivity|..];
    repeat match goal with
           | |- context [if ?b then _ else _] => destruct b
           end; cbn; intros H; discriminate H.
Qed.

End Decimal.

(** ** The rate limit *)

Section RateLimit.

Local Open Scope Z_scope.

Variable clock : Time -> string.

(** The call of [Check] that refills the quota is itself refused. With
    no quota left and the reset time passed, [Check] sets [Remain] back
    to [Limit] and still returns an error; with a positive limit every
    later call then returns nil and changes nothing. *)
Theorem Check_refill_costs_a_call (now now' : Time) (p : Bitmex.Limit) :
  Bitmex.Remain p <= 0 ->
  Bitmex.Reset p < now ->
  0 < Bitmex.Limit_ p ->
  let refilled :=
    Bitmex.mkLimit (Bitmex.Wait p) (Bitmex.Limit_ p) (Bitmex.Limit_ p) (Bitmex.Reset p) in
  fst (Bitmex.Check clock now now' p) = refilled
  /\ (exists e, snd (Bitmex.Check clock now now' p) = Some e)
  /\ forall later later' : Time,
       Bitmex.Check clock later later' refilled = (refilled, None).
Proof.
  intros Hr Ht Hl refilled. unfold Bitmex.Check, Time_After.
  replace (Bitmex.Remain p <=? 0) with true by (symmetry; apply Z.leb_le; exact Hr).
  replace (Bitmex.Reset p <? now) with true by (symmetry; apply Z.ltb_lt; exact Ht).
  split; [reflexivity|]. split; [eexists; reflexivity|].
  intros later later'. subst refilled. cbn [Bitmex.Remain].
  replace (Bitmex.Limit_ p <=? 0) with false by (symmetry; apply Z.leb_gt; exact Hl).
  reflexivity.
Qed.

(** No call of [Check] is granted while the quota is used up and the
    reset time has not passed, and none at any time when the limit is
    not positive: every one of any number of such calls returns an
    error, and [Limit] and [Reset] stay as they were. *)
Theorem CheckAll_refused (times : list (Time * Time)) :
  forall p : Bitmex.Limit,
    Bitmex.Remain p <= 0 ->
    Forall (fun t => Bitmex.Limit_ p <= 0 \/ fst t <= Bitmex.Reset p) times ->
    Forall (fun err => err <> None) (snd (Bitmex.CheckAll clock times p))
    /\ length (snd (Bitmex.CheckAll clock times p)) = length times
    /\ Bitmex.Remain (fst (Bitmex.CheckAll clock times p)) <= 0
    /\ Bitmex.Limit_ (fst (Bitmex.CheckAll clock times p)) = Bitmex.Limit_ p
    /\ Bitmex.Reset (fst (Bitmex.CheckAll clock times p)) = Bitmex.Reset p.
Proof.
  induction times as [|[now now'] times IH]; intros p Hr Ht.
  - cbn. repeat split; [constructor|exact Hr].
  - apply Forall_cons in Ht. destruct Ht as [Hnow Ht]. cbn [fst] in Hnow.
    cbn [Bitmex.CheckAll].
    destruct (Bitmex.Check clock now now' p) as [p1 err] eqn:Hc.
    assert (H1 : err <> None /\ Bitmex.Remain p1 <= 0
                 /\ Bitmex.Limit_ p1 = Bitmex.Limit_ p
                 /\ Bitmex.Reset p1 = Bitmex.Reset p).
    { revert Hc. unfold Bitmex.Check, Time_After.
      replace (Bitmex.Remain p <=? 0) with true
        by (symmetry; apply Z.leb_le; exact Hr).
      destruct (Bitmex.Reset p <? now) eqn:Hlt; intros Hc; injection Hc as <- <-;
        cbn; repeat split; try discriminate; try exact Hr.
      apply Z.ltb_lt in Hlt. destruct Hnow as [Hl|Hn]; [exact Hl|lia]. }
    destruct H1 as (Herr & Hr1 & Hl1 & Hs1).
    destruct (IH p1 Hr1) as (Hall & Hlen & Hr2 & Hl2 & Hs2).
    { rewrite Hl1, Hs1. exact Ht. }
    destruct (Bitmex.CheckAll clock times p1) as [p2 errs]. cbn [fst snd] in *.
    repeat split.
    + constructor; assumption.
    + cbn [length]. rewrite Hlen. reflexivity.
    + exact Hr2.
    + rewrite Hl2. exact Hl1.
    + rewrite Hs2. exact Hs1.
Qed.

(** [FromHeader], field by field: each field depends on its own header
    alone. *)
Lemma FromHeader_fields (h : string -> string) (p : Bitmex.Limit) :
  Bitmex.FromHeader h p
  = Bitmex.mkLimit
      (if negb (String.eqb (h "Retry-After") "")
       then fst (Strconv.Atoi (h "Retry-After")) else 0)
      (if negb (String.eqb (h "x-ratelimit-limit") "")
       then fst (Strconv.Atoi (h "x-ratelimit-limit")) else Bitmex.Limit_ p)
      (if negb (String.eqb (h "x-ratelimit-remaining") "")
       then fst (Strconv.Atoi (h "x-ratelimit-remaining")) else Bitmex.Remain p)
      (if negb (String.eqb (h "X-ratelimit-reset") "")
       then time_Unix (fst (Strconv.ParseInt (h "X-ratelimit-reset"))) 10
       else Bitmex.Reset p).
Proof.
  unfold Bitmex.FromHeader, Bitmex.toTime.
  generalize (Strconv.Atoi (h "Retry-After")) (Strconv.Atoi (h "x-ratelimit-limit"))
    (Strconv.Atoi (h "x-ratelimit-remaining")) (Strconv.ParseInt (h "X-ratelimit-reset")).
  intros w l r t.
  destruct (String.eqb (h "Retry-After") "");
    destruct (String.eqb (h "x-ratelimit-limit") "");
    destruct (String.eqb (h "x-ratelimit-remaining") "");
    destruct (String.eqb (h "X-ratelimit-reset") ""); destruct p; reflexivity.
Qed.

(** [FromHeader] reads back the three numbers of the rate limit headers
    when they are decimal [int64] values, as [formatInt] prints them: the
    limit, the remaining count, and the reset time, which becomes the
    Unix time of that second plus 10 nanoseconds. The bound on the reset
    time keeps its seconds, counted from the year 1 as [time.Time] does,
    within [int64]. *)
Theorem FromHeader_reads_decimal (h : string -> string) (p : Bitmex.Limit)
    (limit remaining reset : Z) :
  - 2 ^ 63 <= limit < 2 ^ 63 ->
  - 2 ^ 63 <= remaining < 2 ^ 63 ->
  - 2 ^ 63 <= reset < 2 ^ 63 - 62135596800 ->
  h "x-ratelimit-limit" = formatInt limit ->
  h "x-ratelimit-remaining" = formatInt remaining ->
  h "X-ratelimit-reset" = formatInt reset ->
  Bitmex.Limit_ (Bitmex.FromHeader h p) = limit
  /\ Bitmex.Remain (Bitmex.FromHeader h p) = remaining
  /\ Bitmex.Reset (Bitmex.FromHeader h p) = reset * Second + 10.
Proof.
  intros Hl Hr Ht Hhl Hhr Hht.
  destruct (ParseInt_formatInt limit Hl) as [Pl Nl].
  destruct (ParseInt_formatInt remaining Hr) as [Pr Nr].
  destruct (ParseInt_formatInt reset ltac:(lia)) as [Pt Nt].
  rewrite FromHeader_fields.
  cbn [Bitmex.Wait Bitmex.Limit_ Bitmex.Remain Bitmex.Reset].
  unfold Strconv.Atoi, time_Unix.
  rewrite Hhl, Hhr, Hht, Pl, Pr, Pt.
  apply String.eqb_neq in Nl, Nr, Nt. rewrite Nl, Nr, Nt.
  repeat split.
Qed.

(** [FromHeader] is idempotent: reading the same headers a second time
    changes nothing. *)
Theorem FromHeader_idempotent (h : string -> string) (p : Bitmex.Limit) :
  Bitmex.FromHeader h (Bitmex.FromHeader h p) = Bitmex.FromHeader h p.
Proof.
  rewrite !FromHeader_fields. cbn [Bitmex.Wait Bitmex.Limit_ Bitmex.Remain Bitmex.Reset].
  generalize (Strconv.Atoi (h "Retry-After")) (Strconv.Atoi (h "x-ratelimit-limit"))
    (Strconv.Atoi (h "x-ratelimit-remaining")) (Strconv.ParseInt (h "X-ratelimit-reset")).
  intros w l r t.
  destruct (String.eqb (h "Retry-After") "");
    destruct (String.eqb (h "x-ratelimit-limit") "");
    destruct (String.eqb (h "x-ratelimit-remaining") "");
    destruct (String.eqb (h "X-ratelimit-reset") ""); reflexivity.
Qed.

(** A remaining count that is present and is not a number is stored as
    0, since the error of [Atoi] is dropped: the next [Check] is refused,
    whatever quota the limit held before. *)
Theorem FromHeader_malformed_remaining (h : string -> string) (p : Bitmex.Limit)
    (now now' : Time) :
  h "x-ratelimit-remaining" <> "" ->
  snd (Strconv.Atoi (h "x-ratelimit-remaining")) = Some Strconv.ErrSyntax ->
  Bitmex.Remain (Bitmex.FromHeader h p) = 0
  /\ exists e, snd (Bitmex.Check clock now now' (Bitmex.FromHeader h p)) = Some e.
Proof.
  intros Hne Herr.
  assert (Hrem : Bitmex.Remain (Bitmex.FromHeader h p) = 0).
  { rewrite FromHeader_fields. cbn [Bitmex.Remain].
    apply String.eqb_neq in Hne. rewrite Hne. cbn [negb].
    exact (ParseInt_syntax _ Herr). }
  split; [exact Hrem|].
  unfold Bitmex.Check. rewrite Hrem. cbn [Z.leb Z.compare snd]. eexists. reflexivity.
Qed.

End RateLimit.

Section RateLimitWitnesses.

Local Open Scope Z_scope.

Lemma Check_refill_costs_a_call_witness :
  let p := Bitmex.mkLimit 0 60 0 100 in
  let refilled := Bitmex.mkLimit 0 60 60 100 in
  fst (Bitmex.Check Scenario.clock 101 102 p) = refilled
  /\ (exists e, snd (Bitmex.Check Scenario.clock 101 102 p) = Some e)
  /\ forall later later' : Time,
       Bitmex.Check Scenario.clock later later' refilled = (refilled, None).
Proof.
  apply (Check_refill_costs_a_call Scenario.clock 101 102 (Bitmex.mkLimit 0 60 0 100));
    cbn; lia.
Defined.

Lemma CheckAll_refused_witness :
  let p := Bitmex.mkLimit 0 60 0 100 in
  let times := [(98, 98); (99, 99); (100, 100)] in
  Forall (fun err => err <> None) (snd (Bitmex.CheckAll Scenario.clock times p))
  /\ length (snd (Bitmex.CheckAll Scenario.clock times p)) = length times
  /\ Bitmex.Remain (fst (Bitmex.CheckAll Scenario.clock times p)) <= 0
  /\ Bitmex.Limit_ (fst (Bitmex.CheckAll Scenario.clock times p)) = Bitmex.Limit_ p
  /\ Bitmex.Reset (fst (Bitmex.CheckAll Scenario.clock times p)) = Bitmex.Reset p.
Proof.
  apply (CheckAll_refused Scenario.clock [(98, 98); (99, 99); (100, 100)] (Bitmex.mkLimit 0 60 0 100)).
  - cbn. lia.
  - do 3 (constructor; [cbn; right; lia|]). constructor.
Defined.

Lemma FromHeader_reads_decimal_witness :
  let h := Scenario.header "300" "299" "1518064298" in
  let p := Bitmex.NewLimit 0 true in
  Bitmex.Limit_ (Bitmex.FromHeader h p) = 300
  /\ Bitmex.Remain (Bitmex.FromHeader h p) = 299
  /\ Bitmex.Reset (Bitmex.FromHeader h p) = 1518064298 * Second + 10.
Proof.
  apply (FromHeader_reads_decimal (Scenario.header "300" "299" "1518064298")
           (Bitmex.NewLimit 0 true) 300 299 1518064298);
    solve [lia | reflexivity].
Defined.

Lemma FromHeader_malformed_remaining_witness :
  let h := Scenario.header "300" "many" "1518064298" in
  let p := Bitmex.NewLimit 0 true in
  Bitmex.Remain (Bitmex.FromHeader h p) = 0
  /\ exists e, snd (Bitmex.Check Scenario.clock 1 2 (Bitmex.FromHeader h p)) = Some e.
Proof.
  apply (FromHeader_malformed_remaining Scenario.clock (Scenario.header "300" "many" "1518064298")
           (Bitmex.NewLimit 0 true) 1 2).
  - discriminate.
  - reflexivity.
Defined.

End RateLimitWitnesses.

(** ** The shape of the signature *)

Lemma length_bytesOfWord (n : nat) (x : Z) : length (Crypto.bytesOfWord n x) = n.
Proof.
  unfold Crypto.bytesOfWord. rewrite length_map, length_rev, length_seq. reflexivity.
Qed.

Lemma length_round (st : list Z) (kw : Z * Z) : length (Crypto.round st kw) = length st.
Proof.
  destruct st as [|a [|b [|c [|d [|e [|f [|g [|h [|i st]]]]]]]]]; reflexivity.
Qed.

Lemma length_rounds (kws : list (Z * Z)) :
  forall st, length (fold_left Crypto.round kws st) = length st.
Proof.
  induction kws as [|kw kws IH]; intros st; [reflexivity|].
  cbn [fold_left]. rewrite IH. apply length_round.
Qed.

Lemma length_compress (h block : list Z) : length (Crypto.compress h block) = length h.
Proof.
  unfold Crypto.compress.
  rewrite length_map, length_combine, length_rounds. apply Nat.min_id.
Qed.

Lemma length_sha256 (msg : list Z) : length (Crypto.sha256 msg) = 32%nat.
Proof.
  unfold Crypto.sha256.
  set (blocks := Crypto.chunks _ 64 _).
  assert (Hst : length (fold_left Crypto.compress blocks Crypto.H256) = 8%nat).
  { generalize blocks. clear blocks.
    assert (H8 : length Crypto.H256 = 8%nat) by reflexivity.
    revert H8. generalize Crypto.H256.
    intros h H8 blocks. revert h H8.
    induction blocks as [|b blocks IH]; intros h H8; [exact H8|].
    cbn [fold_left]. apply IH. rewrite length_compress. exact H8. }
  revert Hst. generalize (fold_left Crypto.compress blocks Crypto.H256).
  intros st. revert st.
  assert (Hflat : forall st : list Z,
             length (flat_map (Crypto.bytesOfWord 4) st) = (4 * length st)%nat).
  { induction st as [|x st IH]; [reflexivity|].
    cbn [flat_map]. rewrite length_app, length_bytesOfWord, IH. cbn [length]. lia. }
  intros st Hst. rewrite Hflat, Hst. reflexivity.
Qed.

Lemma length_EncodeToString (bs : list Z) :
  String.length (Crypto.EncodeToString bs) = (2 * length bs)%nat.
Proof.
  induction bs as [|b bs IH]; [reflexivity|].
  cbn [Crypto.EncodeToString String.length length]. rewrite IH. lia.
Qed.

Lemma hexDigit_isHexDigit (d : Z) : isHexDigit (Crypto.hexDigit d) = true.
Proof.
  unfold Crypto.hexDigit. generalize (Z.to_nat d). intros n.
  do 16 (destruct n as [|n]; [reflexivity|]). 
  destruct n; reflexivity.
Qed.

Lemma EncodeToString_hex (bs : list Z) :
  forallb isHexDigit (list_ascii_of_string (Crypto.EncodeToString bs)) = true.
Proof.
  induction bs as [|b bs IH]; [reflexivity|].
  cbn [Crypto.EncodeToString list_ascii_of_string forallb].
  rewrite !hexDigit_isHexDigit, IH. reflexivity.
Qed.

(** Whatever the key, the secret and the time, the signature that
    [signture] sends as the third argument of [authKeyExpires] is a
    string of exactly 64 lowercase hexadecimal digits, and the second
    argument is the Unix time of the moment 24 hours after [now]. *)
Theorem signture_signature_format (now : Time) (auth : Auth) (p : Client) :
  exists sign : string,
    map fst (written (conn (fst (signture now auth p))))
    = map fst (written (conn p))
      ++ [JSONFrame
            (mkRequest "authKeyExpires"
               [ArgString (Key auth);
                ArgInt64 (Time_Unix (Time_Add now (24 * 60 * Minute)));
                ArgString sign] 1)]
    /\ String.length sign = 64%nat
    /\ forallb isHexDigit (list_ascii_of_string sign) = true.
Proof.
  rewrite signture_writes. unfold WriteJSON.
  cbn [fst conn setConn written]. rewrite map_app. cbn [map fst].
  unfold authRequest. eexists. split; [reflexivity|]. split.
  - rewrite length_EncodeToString. unfold Crypto.hmac_sha256.
    rewrite length_sha256. reflexivity.
  - apply EncodeToString_hex.
Qed.

(** ** The further properties on the sample world *)

Lemma Connect_nil_after_streaming_witness :
  exists (p : Client) (requests : list Request),
    streaming Sample.droppedEnv ["trade"] (Some ["XBTUSD"]) = Some (p, requests)
    /\ GoStrings.Contains
         (snd (readLoop Sample.lib "XBTUSD" "ETHUSD" (steps Sample.droppedEnv) []))
         "context canceled" = false.
Proof.
  apply (Connect_nil_after_streaming Sample.lib "XBTUSD" "ETHUSD" Sample.droppedEnv []
           ["trade"] (Some ["XBTUSD"])).
  vm_compute. reflexivity.
Defined.

Lemma Connect_context_done_witness :
  outcome (Sample.connect Sample.cancelledEnv)
  = Returns (Some "context stop outside context canceled")
  /\ channel (Sample.connect Sample.cancelledEnv)
     = [] ++ delivered Sample.lib "XBTUSD" "ETHUSD"
               [ReadFrame (Sample.text Sample.tradeFrame) Active].
Proof.
  refine (Connect_context_done Sample.lib "XBTUSD" "ETHUSD" Sample.cancelledEnv []
            ["trade"] (Some ["XBTUSD"]) _ _
            [ReadFrame (Sample.text Sample.tradeFrame) Active]
            [ReadFail "unexpected EOF"]
            (Sample.text Sample.liquidationFrame) Canceled _ _ _ _ _ _).
  - vm_compute. reflexivity.
  - reflexivity.
  - vm_compute. reflexivity.
  - vm_compute. reflexivity.
  - discriminate.
Defined.

Lemma Connect_session_writes_witness :
  exists p' : Client,
    client (Scenario.connect (Scenario.env Scenario.authTeardownFails (Some Sample.auth)
                                Scenario.steps3))
    = Some p'
    /\ map fst (written (conn p'))
       = map fst (written Scenario.authTeardownFails)
         ++ [JSONFrame (authRequest 1518064238000000000%Z Sample.auth)]
         ++ [ JSONFrame
                (mkRequest "subscribe"
                   (subscribeArgs ["trade"; "orderBook10"] (Some ["XBTUSD"])) 0);
              JSONFrame
                (mkRequest "unsubscribe"
                   (subscribeArgs ["trade"; "orderBook10"] (Some ["XBTUSD"])) 0) ]
    /\ writeOutcomes (conn p') = drop 3 (writeOutcomes Scenario.authTeardownFails).
Proof.
  refine (Connect_session_writes Scenario.lib "XBTUSD" "ETHUSD"
            (Scenario.env Scenario.authTeardownFails (Some Sample.auth) Scenario.steps3)
            [] ["trade"; "orderBook10"] (Some ["XBTUSD"]) Scenario.authTeardownFails
            _ _ _ _).
  - reflexivity.
  - vm_compute. reflexivity.
Defined.

Lemma Connect_auth_write_failure_witness :
  Scenario.connect (Scenario.env Scenario.firstWriteFails (Some Sample.auth)
                      Scenario.steps3)
  = mkResult (Returns (Some "broken pipe"))
      (Some (mkClient
               (mkConn [] None
                  [(JSONFrame (authRequest 1518064238000000000%Z Sample.auth),
                    Some "broken pipe")]
                  1)
               (Some Sample.auth) []))
      [].
Proof.
  apply (Connect_auth_write_failure Scenario.lib "XBTUSD" "ETHUSD"
           (Scenario.env Scenario.firstWriteFails (Some Sample.auth) Scenario.steps3)
           [] ["trade"; "orderBook10"] (Some ["XBTUSD"]) Scenario.firstWriteFails
           Sample.auth "broken pipe" []); reflexivity.
Defined.

Lemma Connect_subscribe_write_failure_witness :
  Scenario.connect (Scenario.env Scenario.secondWriteFails (Some Sample.auth)
                      Scenario.steps3)
  = mkResult (Returns (Some "disconnect broken pipe"))
      (Some (mkClient
               (mkConn [] None
                  ([] ++ [(JSONFrame (authRequest 1518064238000000000%Z Sample.auth),
                           None)]
                   ++ [(JSONFrame
                          (mkRequest "subscribe"
                             (subscribeArgs ["trade"; "orderBook10"] (Some ["XBTUSD"]))
                             0),
                        Some "broken pipe")])
                  1)
               (Some Sample.auth)
               [LogDisconnect "broken pipe"]))
      [].
Proof.
  apply (Connect_subscribe_write_failure Scenario.lib "XBTUSD" "ETHUSD"
           (Scenario.env Scenario.secondWriteFails (Some Sample.auth) Scenario.steps3)
           [] ["trade"; "orderBook10"] (Some ["XBTUSD"]) Scenario.secondWriteFails
           "broken pipe" []); reflexivity.
Defined.

Lemma Connect_closes_once_witness :
  exists (err : option error) (p' : Client),
    outcome (Scenario.connect (Scenario.env Scenario.teardownFails None Scenario.steps3))
    = Returns err
    /\ client (Scenario.connect (Scenario.env Scenario.teardownFails None Scenario.steps3))
       = Some p'
    /\ closes (conn p') = S (closes Scenario.teardownFails)
    /\ ClientAuth p' = None.
Proof.
  apply (Connect_closes_once Scenario.lib "XBTUSD" "ETHUSD"
           (Scenario.env Scenario.teardownFails None Scenario.steps3)
           [] ["trade"; "orderBook10"] (Some ["XBTUSD"]) Scenario.teardownFails).
  reflexivity.
Defined.

(** A session on the sample world whose teardown fails: the failed
    unsubscribe write and the failed [Close] are printed, and [Connect]
    still returns nil after the read error. *)
Example teardown_failures_are_logged :
  outcome (Scenario.connect (Scenario.env Scenario.teardownFails None Scenario.steps3))
  = Returns None
  /\ option_map log
       (client (Scenario.connect (Scenario.env Scenario.teardownFails None
                                    Scenario.steps3)))
     = Some [ LogSubscribed
                (mkRequest "subscribe"
                   [ArgString "trade:XBTUSD"; ArgString "orderBook10:XBTUSD"] 0);
              LogError "can't receive error: unexpected EOF";
              LogUnsubscribe "use of closed connection";
              LogKilledSubscribe;
              LogClose "already closed" ].
Proof. split; vm_compute; reflexivity. Qed.

(** The order book of the sample frame reaches the channel with its bids
    and without its asks. *)
Example orderbook_frame_delivered :
  map (fun r => (r_Types r, map (fun b => (length (Bids b), length (Asks b)))
                              (r_Orderbook r)))
      (channel (Scenario.connect (Scenario.env Sample.freshConn None Scenario.steps3)))
  = [(Trade, []); (Orderbook, [(2%nat, 0%nat)])].
Proof. vm_compute. reflexivity. Qed.

(** A context whose deadline has passed ends the session with a nil
    error. *)
Example deadline_returns_nil :
  outcome (Scenario.connect
             (Scenario.env Sample.freshConn None
                [ReadFrame (Sample.text Sample.tradeFrame) DeadlineExceeded]))
  = Returns None.
Proof. vm_compute. reflexivity. Qed.
